(** * simple_landing: the indirect (Pontryagin) shooting problem of a lander

    A shallow embedding of [simple_landing.py] and the properties of its
    unit scaling, control law, costate dynamics and boundary residuals.

    Numbers.  Python floats are idealised as real numbers ([R]): rounding,
    infinities and nan are not modelled.  The operations keep the behaviour
    of Python that the properties depend on: the true division [/] of
    floats raises [ZeroDivisionError] at a zero divisor, [math.sqrt] raises
    [ValueError] below zero, indexing a list out of range raises
    [IndexError], unpacking a list of the wrong length raises [ValueError],
    and reading a local variable that no branch assigned raises
    [UnboundLocalError].  The methods are modelled as applied to Python
    lists of floats.  On the numpy rows that the integrator passes, a
    division by zero yields inf or nan, with a warning, instead of raising;
    that behaviour lies outside this model, and the properties that bear on
    those call paths carry the nonzero divisors as explicit hypotheses.

    Exceptions are values of an error monad; a method of the class takes the
    object [self] as its first argument, as in Python.  The integrator
    [scipy.integrate.odeint] is external and is taken as a parameter. *)

From Stdlib Require Import Reals Lra List String Bool Arith Lia.
Import ListNotations.
Open Scope R_scope.

(** ** The Python runtime the class relies on *)

Module Py.

(** The built-in exceptions that the methods can raise. *)
Inductive exn : Set :=
| ZeroDivisionError
| UnboundLocalError
| IndexError
| ValueError.

Inductive result (A : Type) : Type :=
| Ok (a : A)
| Raise (e : exn).
Arguments Ok {A} a.
Arguments Raise {A} e.

Definition bind {A B : Type} (m : result A) (k : A -> result B) : result B :=
  match m with
  | Ok a => k a
  | Raise e => Raise e
  end.

(** [a / b] on floats. *)
Definition truediv (a b : R) : result R :=
  if Req_dec_T b 0 then Raise ZeroDivisionError else Ok (a / b).

(** [math.sqrt]. *)
Definition math_sqrt (a : R) : result R :=
  if Rlt_dec a 0 then Raise ValueError else Ok (sqrt a).

(** [min(a, b)] and [max(a, b)]: the first argument is kept unless the
    second is strictly smaller (resp. larger). *)
Definition min (a b : R) : R := if Rlt_dec b a then b else a.
Definition max (a b : R) : R := if Rlt_dec a b then b else a.

(** [l[i]] for an index [i >= 0]. *)
Definition getitem {A : Type} (l : list A) (i : nat) : result A :=
  match nth_error l i with
  | Some a => Ok a
  | None => Raise IndexError
  end.

(** [l[-1]]. *)
Definition getlast {A : Type} (l : list A) : result A :=
  match l with
  | [] => Raise IndexError
  | a :: l' => Ok (last l' a)
  end.

(** [l[i] = v] for an index [i >= 0]. *)
Fixpoint setitem {A : Type} (l : list A) (i : nat) (v : A) : result (list A) :=
  match l, i with
  | [], _ => Raise IndexError
  | _ :: l', O => Ok (v :: l')
  | a :: l', S i' =>
      match setitem l' i' v with
      | Ok r => Ok (a :: r)
      | Raise e => Raise e
      end
  end.

(** Reading a local variable: unbound when no branch assigned it. *)
Definition load {A : Type} (v : option A) : result A :=
  match v with
  | Some a => Ok a
  | None => Raise UnboundLocalError
  end.

(** [a, b, c = l] *)
Definition unpack3 {A : Type} (l : list A) : result (A * A * A) :=
  match l with
  | [a; b; c] => Ok (a, b, c)
  | _ => Raise ValueError
  end.

(** [a, b, c, d, e = l] *)
Definition unpack5 {A : Type} (l : list A) : result (A * A * A * A * A) :=
  match l with
  | [a; b; c; d; e] => Ok (a, b, c, d, e)
  | _ => Raise ValueError
  end.

(** [a, b, c, d, e, f, g, h, i, j = l] *)
Definition unpack10 {A : Type} (l : list A)
  : result (A * A * A * A * A * A * A * A * A * A) :=
  match l with
  | [a; b; c; d; e; f; g; h; i; j] => Ok (a, b, c, d, e, f, g, h, i, j)
  | _ => Raise ValueError
  end.

End Py.

Import Py.

Declare Scope py_scope.
Delimit Scope py_scope with py.
Notation "x <- m ;; k" := (bind m (fun x => k))
  (at level 61, m at next level, right associativity) : py_scope.
Notation "' p <- m ;; k" := (bind m (fun p => k))
  (at level 61, p pattern, m at next level, right associativity) : py_scope.
Open Scope py_scope.

(** ** The problem object *)

(** The attributes that [__init__] stores on [self]. *)
Record simple_landing : Type := {
  self_state0_input : list R;
  self_statet_input : list R;
  self_R : R;
  self_V : R;
  self_M : R;
  self_A : R;
  self_T : R;
  self_F : R;
  self_Isp : R;
  self_c : R;
  self_g : R;
  self_G0 : R;
  self_state0 : list R;
  self_statet : list R;
  self_lb : list R;
  self_ub : list R;
  self_objfun_type : string;
  self_pinpoint : bool
}.

(** [l[i] /= d] and [l[i] *= d] *)
Definition idiv_item (l : list R) (i : nat) (d : R) : result (list R) :=
  v <- getitem l i ;;
  q <- truediv v d ;;
  setitem l i q.

Definition imul_item (l : list R) (i : nat) (d : R) : result (list R) :=
  v <- getitem l i ;;
  setitem l i (v * d).

Definition _non_dim (self : simple_landing) (state : list R) : result (list R) :=
  let xnd := state in
  xnd <- idiv_item xnd 0 (self_R self) ;;
  xnd <- idiv_item xnd 1 (self_R self) ;;
  xnd <- idiv_item xnd 2 (self_V self) ;;
  xnd <- idiv_item xnd 3 (self_V self) ;;
  xnd <- idiv_item xnd 4 (self_M self) ;;
  Ok xnd.

Definition _dim_back (self : simple_landing) (state : list R) : result (list R) :=
  let xd := state in
  xd <- imul_item xd 0 (self_R self) ;;
  xd <- imul_item xd 1 (self_R self) ;;
  xd <- imul_item xd 2 (self_V self) ;;
  xd <- imul_item xd 3 (self_V self) ;;
  xd <- imul_item xd 4 (self_M self) ;;
  Ok xd.

(** The constructor.  The attributes are assigned in the order of the
    source; [_non_dim] is called on the object as it stands at that point,
    where the attributes assigned later are still absent (here: empty, and
    never read by [_non_dim]).  The constructor of the PyGMO base class
    receives constants only (6 variables, 6 equality constraints, tolerance
    1e-8); [set_bounds] stores the two lists of bounds. *)
Definition __init__ (state0 statet : list R) (Isp c g : R)
    (objfun_type : string) (pinpoint : bool) : result simple_landing :=
  let R_ := 1000 in
  let V_ := 100 in
  let M_ := 10000 in
  A_ <- truediv (V_ * V_) R_ ;;
  T_ <- truediv R_ V_ ;;
  let F_ := M_ * A_ in
  Isp_ <- truediv Isp T_ ;;
  c_ <- truediv c F_ ;;
  g_ <- truediv g A_ ;;
  G0_ <- truediv (981 / 100) A_ ;;
  let self :=
    {| self_state0_input := state0; self_statet_input := statet;
       self_R := R_; self_V := V_; self_M := M_;
       self_A := A_; self_T := T_; self_F := F_;
       self_Isp := Isp_; self_c := c_; self_g := g_; self_G0 := G0_;
       self_state0 := []; self_statet := [];
       self_lb := []; self_ub := [];
       self_objfun_type := ""; self_pinpoint := false |} in
  s0 <- _non_dim self state0 ;;
  st <- _non_dim self statet ;;
  tmax <- truediv 100 T_ ;;
  Ok {| self_state0_input := state0; self_statet_input := statet;
        self_R := R_; self_V := V_; self_M := M_;
        self_A := A_; self_T := T_; self_F := F_;
        self_Isp := Isp_; self_c := c_; self_g := g_; self_G0 := G0_;
        self_state0 := s0; self_statet := st;
        self_lb := repeat (-1) 5 ++ [1 / 10000];
        self_ub := repeat 1 5 ++ [tmax];
        self_objfun_type := objfun_type; self_pinpoint := pinpoint |}.

(** ** Running cost, dynamics and control law *)

Definition _cost (self : simple_landing) (state controls : list R) : result R :=
  let Isp := self_Isp self in
  let g0 := self_G0 self in
  let c := self_c self in
  '(u, stheta, ctheta) <- unpack3 controls ;;
  retval <-
    (if (self_objfun_type self =? "QC")%string then
       q <- truediv (c ^ 2) Isp ;;
       q <- truediv q g0 ;;
       Ok (Some (q * u ^ 2))
     else if (self_objfun_type self =? "MOC")%string then
       q <- truediv c Isp ;;
       q <- truediv q g0 ;;
       Ok (Some (q * u))
     else Ok None) ;;
  load retval.

Definition _eom_state (self : simple_landing) (state controls : list R)
    : result (list R) :=
  '(x, y, vx, vy, m) <- unpack5 state ;;
  let Isp := self_Isp self in
  let g0 := self_G0 self in
  let g := self_g self in
  let c := self_c self in
  '(u, stheta, ctheta) <- unpack3 controls ;;
  let dx := vx in
  let dy := vy in
  q <- truediv (c * u) m ;;
  let dvx := q * stheta in
  q <- truediv (c * u) m ;;
  let dvy := q * ctheta - g in
  q <- truediv (- c * u) Isp ;;
  dm <- truediv q g0 ;;
  Ok [dx; dy; dvx; dvy; dm].

Definition _eom_costate (self : simple_landing) (full_state controls : list R)
    : result (list R) :=
  '(x, y, vx, vy, m, lx, ly, lvx, lvy, lm) <- unpack10 full_state ;;
  let Isp := self_Isp self in
  let g0 := self_G0 self in
  let c := self_c self in
  '(u, stheta, ctheta) <- unpack3 controls ;;
  let lvdotitheta := lvx * stheta + lvy * ctheta in
  let dlx := 0 in
  let dly := 0 in
  let dlvx := - lx in
  let dlvy := - ly in
  q <- truediv (c * u) (m ^ 2) ;;
  let dlm := q * lvdotitheta in
  Ok [dlx; dly; dlvx; dlvy; dlm].

Definition _pontryagin_minimum_principle (self : simple_landing)
    (full_state : list R) : result (list R) :=
  let Isp := self_Isp self in
  let g0 := self_G0 self in
  let c := self_c self in
  '(x, y, vx, vy, m, lx, ly, lvx, lvy, lm) <- unpack10 full_state ;;
  lv_norm <- math_sqrt (lvx ^ 2 + lvy ^ 2) ;;
  stheta <- truediv (- lvx) lv_norm ;;
  ctheta <- truediv (- lvy) lv_norm ;;
  u <-
    (if (self_objfun_type self =? "QC")%string then
       q <- truediv 1 c ;;
       r <- truediv (lv_norm * Isp * g0) m ;;
       let u := q * (lm + r) in
       let u := Py.min u 1 in
       let u := Py.max u 0 in
       Ok (Some u)
     else if (self_objfun_type self =? "MOC")%string then
       q <- truediv lv_norm m ;;
       let S := 1 - lm - q * Isp * g0 in
       let u := None in
       let u := if Rge_dec S 0 then Some 0 else u in
       let u := if Rlt_dec S 0 then Some 1 else u in
       Ok u
     else Ok None) ;;
  u <- load u ;;
  Ok [u; stheta; ctheta].

Definition _hamiltonian (self : simple_landing) (full_state : list R) : result R :=
  let state := firstn 5 full_state in
  let costate := skipn 5 full_state in
  controls <- _pontryagin_minimum_principle self full_state ;;
  f_vett <- _eom_state self state controls ;;
  let H := fold_left (fun H lf => H + fst lf * snd lf) (combine costate f_vett) 0 in
  cost <- _cost self state controls ;;
  Ok (H + cost).

Definition _eom (self : simple_landing) (full_state : list R) (t : R)
    : result (list R) :=
  let state := firstn 5 full_state in
  controls <- _pontryagin_minimum_principle self full_state ;;
  dstate <- _eom_state self state controls ;;
  dcostate <- _eom_costate self full_state controls ;;
  Ok (dstate ++ dcostate).

(** ** Shooting *)

(** The second value of [odeint(..., full_output=1)]: scipy's dictionary of
    diagnostics, of which the [message] entry tells whether the integration
    succeeded. *)
Record infodict : Type := { message : string }.

Definition integration_successful (info : infodict) : Prop :=
  message info = "Integration successful."%string.

Section Shooting.

(** [scipy.integrate.odeint], called as
    [odeint(f, y0, t, rtol=1e-12, atol=1e-12, full_output=1, mxstep=2000)]:
    an external integrator.  It returns one row per entry of [t] and the
    dictionary of diagnostics; an exception of the right-hand side [f]
    propagates.  A failed integration raises nothing: it is reported in
    the dictionary only. *)
Variable odeint :
  (list R -> R -> result (list R)) -> list R -> list R ->
  result (list (list R) * infodict).

Definition _shoot (self : simple_landing) (x : list R)
    : result (list (list R) * infodict) :=
  let y0 := self_state0 self ++ removelast x in
  tf <- getlast x ;;
  odeint (fun a b => _eom self a b) y0 [0; tf].

Definition _simulate (self : simple_landing) (x tspan : list R)
    : result (list (list R) * infodict) :=
  odeint (fun a b => _eom self a b) (self_state0 self ++ removelast x) tspan.

Definition _objfun_impl (self : simple_landing) (x : list R) : list R := [1].

Definition _compute_constraints_impl (self : simple_landing) (x : list R)
    : result (list R) :=
  '(xf, info) <- _shoot self x ;;
  let ceq := repeat 0 6 in
  (* ceq[1] = (xf[-1][1] - self.statet[1]) * 100. *)
  row <- getlast xf ;;
  a <- getitem row 1 ;;
  b <- getitem (self_statet self) 1 ;;
  ceq <- setitem ceq 1 ((a - b) * 100) ;;
  (* ceq[2] = (xf[-1][2] - self.statet[2]) * 100. *)
  row <- getlast xf ;;
  a <- getitem row 2 ;;
  b <- getitem (self_statet self) 2 ;;
  ceq <- setitem ceq 2 ((a - b) * 100) ;;
  (* ceq[3] = (xf[-1][3] - self.statet[3]) * 100. *)
  row <- getlast xf ;;
  a <- getitem row 3 ;;
  b <- getitem (self_statet self) 3 ;;
  ceq <- setitem ceq 3 ((a - b) * 100) ;;
  (* ceq[4] = xf[-1][9] * 100. *)
  row <- getlast xf ;;
  a <- getitem row 9 ;;
  ceq <- setitem ceq 4 (a * 100) ;;
  ceq <-
    (if self_pinpoint self then
       (* ceq[0] = (xf[-1][0] - self.statet[0]) * 100 *)
       row <- getlast xf ;;
       a <- getitem row 0 ;;
       b <- getitem (self_statet self) 0 ;;
       setitem ceq 0 ((a - b) * 100)
     else
       (* ceq[0] = xf[-1][5] * 100. *)
       row <- getlast xf ;;
       a <- getitem row 5 ;;
       setitem ceq 0 (a * 100)) ;;
  (* ceq[5] = self._hamiltonian(xf[-1]) * 100. *)
  row <- getlast xf ;;
  H <- _hamiltonian self row ;;
  ceq <- setitem ceq 5 (H * 100) ;;
  Ok ceq.

End Shooting.

(** ** Example data *)

(** The default arguments of the constructor. *)
Definition default_state0 : list R := [0; 1000; 20; -5; 10000].
Definition default_statet : list R := [0; 0; 0; 0; 9758695805 / 1000000].

(** The object that [simple_landing()] builds (see [init_default]). *)
Definition default_problem : simple_landing :=
  {| self_state0_input := default_state0;
     self_statet_input := default_statet;
     self_R := 1000; self_V := 100; self_M := 10000;
     self_A := 100 * 100 / 1000; self_T := 1000 / 100;
     self_F := 10000 * (100 * 100 / 1000);
     self_Isp := 311 / (1000 / 100);
     self_c := 44000 / (10000 * (100 * 100 / 1000));
     self_g := 16229 / 10000 / (100 * 100 / 1000);
     self_G0 := 981 / 100 / (100 * 100 / 1000);
     self_state0 := [0 / 1000; 1000 / 1000; 20 / 100; -5 / 100; 10000 / 10000];
     self_statet :=
       [0 / 1000; 0 / 1000; 0 / 100; 0 / 100; 9758695805 / 1000000 / 10000];
     self_lb := repeat (-1) 5 ++ [1 / 10000];
     self_ub := repeat 1 5 ++ [100 / (1000 / 100)];
     self_objfun_type := "QC"; self_pinpoint := false |}.

(** The problem of the script at the end of the file, on the default
    states: mass optimal, pinpoint. *)
Definition moc_problem : simple_landing :=
  {| self_state0_input := default_state0;
     self_statet_input := default_statet;
     self_R := 1000; self_V := 100; self_M := 10000;
     self_A := 100 * 100 / 1000; self_T := 1000 / 100;
     self_F := 10000 * (100 * 100 / 1000);
     self_Isp := 311 / (1000 / 100);
     self_c := 44000 / (10000 * (100 * 100 / 1000));
     self_g := 16229 / 10000 / (100 * 100 / 1000);
     self_G0 := 981 / 100 / (100 * 100 / 1000);
     self_state0 := [0 / 1000; 1000 / 1000; 20 / 100; -5 / 100; 10000 / 10000];
     self_statet :=
       [0 / 1000; 0 / 1000; 0 / 100; 0 / 100; 9758695805 / 1000000 / 10000];
     self_lb := repeat (-1) 5 ++ [1 / 10000];
     self_ub := repeat 1 5 ++ [100 / (1000 / 100)];
     self_objfun_type := "MOC"; self_pinpoint := true |}.

(** An integrator to run the shooting on: it returns the initial row at
    every requested time, which is the solution when all the requested
    times are the initial one, and reports [msg]. *)
Definition odeint_still (msg : string)
    (f : list R -> R -> result (list R)) (y0 t : list R)
    : result (list (list R) * infodict) :=
  Ok (map (fun _ => y0) t, {| message := msg |}).

(** The message of scipy for an exhausted step budget. *)
Definition excess_work : string :=
  "Excess work done on this call (perhaps wrong Dfun type).".

(** The spec's saturation. *)
Definition clamp (v lo hi : R) : R := Rmax lo (Rmin v hi).


(** The throttle of the spec under the quadratic objective. *)
Definition throttle_QC (self : simple_landing) (m lvx lvy lm : R) : R :=
  clamp ((lm + sqrt (lvx ^ 2 + lvy ^ 2) * self_Isp self * self_G0 self / m)
         / self_c self) 0 1.

(** The switching function of the spec under the mass-optimal objective. *)
Definition switching (self : simple_landing) (m lvx lvy lm : R) : R :=
  1 - lm - sqrt (lvx ^ 2 + lvy ^ 2) / m * self_Isp self * self_G0 self.

(** The spec's running cost and Hamiltonian, in closed form. *)
Definition running_cost (self : simple_landing) (u : R) : R :=
  if (self_objfun_type self =? "QC")%string
  then self_c self ^ 2 * u ^ 2 / (self_Isp self * self_G0 self)
  else self_c self * u / (self_Isp self * self_G0 self).

Definition hamiltonian_closed (self : simple_landing)
    (vx vy m lx ly lvx lvy lm u stheta ctheta : R) : R :=
  lx * vx + ly * vy
  + lvx * (self_c self * u * stheta / m)
  + lvy * (self_c self * u * ctheta / m - self_g self)
  + lm * (- (self_c self * u) / (self_Isp self * self_G0 self))
  + running_cost self u.

(** A decision vector with a zero time of flight, and the final row that
    the integration of the default problem ends on from it: the initial
    state followed by the five costates. *)
Definition x_still : list R := [0; 0; 0; 1; 0; 0].

Definition row_still : list R :=
  [0 / 1000; 1000 / 1000; 20 / 100; -5 / 100; 10000 / 10000; 0; 0; 0; 1; 0].

(** The Hamiltonian of the default problem at [row_still]. *)
Definition h_still : R :=
  hamiltonian_closed default_problem (20 / 100) (-5 / 100) (10000 / 10000)
    0 0 0 1 0
    (throttle_QC default_problem (10000 / 10000) 0 1 0)
    (- 0 / sqrt (0 ^ 2 + 1 ^ 2)) (- 1 / sqrt (0 ^ 2 + 1 ^ 2)).

Definition successful : string := "Integration successful.".

(** The Hamiltonian of a given control triple: the statements of
    [_hamiltonian] that follow the call of the control law (the state
    equations, the sum over [zip(costate, f_vett)], the running cost). *)
Definition hamiltonian_at (self : simple_landing) (full_state controls : list R)
    : result R :=
  let state := firstn 5 full_state in
  let costate := skipn 5 full_state in
  f_vett <- _eom_state self state controls ;;
  let H := fold_left (fun H lf => H + fst lf * snd lf) (combine costate f_vett) 0 in
  cost <- _cost self state controls ;;
  Ok (H + cost).

(** * Properties *)

(** ** The runtime *)

Lemma truediv_ok (a b : R) : b <> 0 -> truediv a b = Ok (a / b).
Proof.
  intros Hb. unfold truediv. destruct (Req_dec_T b 0) as [E | _].
  - contradiction.
  - reflexivity.
Qed.

Lemma truediv_zero (a : R) : truediv a 0 = Raise ZeroDivisionError.
Proof.
  unfold truediv. destruct (Req_dec_T 0 0) as [_ | N].
  - reflexivity.
  - exfalso. apply N. reflexivity.
Qed.

Lemma math_sqrt_ok (a : R) : 0 <= a -> math_sqrt a = Ok (sqrt a).
Proof.
  intros Ha. unfold math_sqrt. destruct (Rlt_dec a 0) as [L | _].
  - lra.
  - reflexivity.
Qed.

Lemma sum_sq_nonneg (a b : R) : 0 <= a ^ 2 + b ^ 2.
Proof. pose proof (pow2_ge_0 a). pose proof (pow2_ge_0 b). lra. Qed.

Lemma min_Rmin (a b : R) : Py.min a b = Rmin a b.
Proof. unfold Py.min, Rmin. destruct (Rlt_dec b a), (Rle_dec a b); lra. Qed.

Lemma max_Rmax (a b : R) : Py.max a b = Rmax b a.
Proof. unfold Py.max, Rmax. destruct (Rlt_dec a b), (Rle_dec b a); lra. Qed.

Lemma clamp_bounds (v : R) : 0 <= clamp v 0 1 <= 1.
Proof.
  unfold clamp. split.
  - apply Rmax_l.
  - apply Rmax_lub; [lra | apply Rmin_r].
Qed.

Lemma bind_Ok_inv {A B : Type} (m : result A) (k : A -> result B) (b : B) :
  bind m k = Ok b -> exists a, m = Ok a /\ k a = Ok b.
Proof.
  destruct m as [a | e]; cbn; intros H.
  - exists a. split; [reflexivity | exact H].
  - discriminate H.
Qed.

Lemma sqrt_0_1 : sqrt (0 ^ 2 + 1 ^ 2) = 1.
Proof. replace (0 ^ 2 + 1 ^ 2) with 1 by lra. apply sqrt_1. Qed.

Lemma sqrt_0_0 : sqrt (0 ^ 2 + 0 ^ 2) = 0.
Proof. replace (0 ^ 2 + 0 ^ 2) with 0 by lra. apply sqrt_0. Qed.

#[global] Arguments truediv : simpl never.
#[global] Arguments math_sqrt : simpl never.
#[global] Arguments Py.min : simpl never.
#[global] Arguments Py.max : simpl never.
#[global] Arguments pow : simpl never.

(** ** Unit scaling *)

Section UnitScaler.

Variable self : simple_landing.

Lemma non_dim_five (x y vx vy m : R) (rest : list R) :
  self_R self <> 0 -> self_V self <> 0 -> self_M self <> 0 ->
  _non_dim self (x :: y :: vx :: vy :: m :: rest) =
  Ok (x / self_R self :: y / self_R self :: vx / self_V self ::
      vy / self_V self :: m / self_M self :: rest).
Proof.
  intros HR HV HM. unfold _non_dim, idiv_item. cbn.
  repeat (rewrite truediv_ok by assumption; cbn). reflexivity.
Qed.

Lemma dim_back_five (x y vx vy m : R) (rest : list R) :
  _dim_back self (x :: y :: vx :: vy :: m :: rest) =
  Ok (x * self_R self :: y * self_R self :: vx * self_V self ::
      vy * self_V self :: m * self_M self :: rest).
Proof. reflexivity. Qed.

(** A state of fewer than five components cannot be scaled. *)
Lemma non_dim_short (state : list R) :
  self_R self <> 0 -> self_V self <> 0 -> self_M self <> 0 ->
  (List.length state < 5)%nat -> _non_dim self state = Raise IndexError.
Proof.
  intros HR HV HM Hlen. unfold _non_dim, idiv_item.
  destruct state as [| x [| y [| vx [| vy [| m rest]]]]]; cbn;
    repeat (rewrite truediv_ok by assumption; cbn); try reflexivity.
  cbn in Hlen. lia.
Qed.

End UnitScaler.

(** ** Construction *)

(** The constructor succeeds on every initial and target state of at least
    five components, whatever the numbers are, and stores the scaled
    values. *)
Lemma init_value (x0 y0 vx0 vy0 m0 : R) (r0 : list R)
    (xt yt vxt vyt mt : R) (rt : list R) (Isp c g : R)
    (objfun_type : string) (pinpoint : bool) :
  __init__ (x0 :: y0 :: vx0 :: vy0 :: m0 :: r0)
           (xt :: yt :: vxt :: vyt :: mt :: rt) Isp c g objfun_type pinpoint =
  Ok {| self_state0_input := x0 :: y0 :: vx0 :: vy0 :: m0 :: r0;
        self_statet_input := xt :: yt :: vxt :: vyt :: mt :: rt;
        self_R := 1000; self_V := 100; self_M := 10000;
        self_A := 100 * 100 / 1000; self_T := 1000 / 100;
        self_F := 10000 * (100 * 100 / 1000);
        self_Isp := Isp / (1000 / 100);
        self_c := c / (10000 * (100 * 100 / 1000));
        self_g := g / (100 * 100 / 1000);
        self_G0 := 981 / 100 / (100 * 100 / 1000);
        self_state0 :=
          x0 / 1000 :: y0 / 1000 :: vx0 / 100 :: vy0 / 100 :: m0 / 10000 :: r0;
        self_statet :=
          xt / 1000 :: yt / 1000 :: vxt / 100 :: vyt / 100 :: mt / 10000 :: rt;
        self_lb := repeat (-1) 5 ++ [1 / 10000];
        self_ub := repeat 1 5 ++ [100 / (1000 / 100)];
        self_objfun_type := objfun_type; self_pinpoint := pinpoint |}.
Proof.
  unfold __init__.
  repeat (rewrite truediv_ok by lra; cbn [bind]).
  rewrite !non_dim_five by (cbn; lra). cbn [bind].
  cbn [self_R self_V self_M].
  reflexivity.
Qed.

Lemma init_default :
  __init__ default_state0 default_statet 311 44000 (16229 / 10000) "QC" false =
  Ok default_problem.
Proof. unfold default_state0, default_statet. rewrite init_value. reflexivity. Qed.

Lemma init_moc :
  __init__ default_state0 default_statet 311 44000 (16229 / 10000) "MOC" true =
  Ok moc_problem.
Proof. unfold default_state0, default_statet. rewrite init_value. reflexivity. Qed.

(** A state of fewer than five components is the one input that the
    constructor refuses, with the [IndexError] of the scaling. *)
Lemma init_short_state (state0 statet : list R) (Isp c g : R)
    (objfun_type : string) (pinpoint : bool) :
  (List.length state0 < 5)%nat ->
  __init__ state0 statet Isp c g objfun_type pinpoint = Raise IndexError.
Proof.
  intros Hlen. unfold __init__.
  repeat (rewrite truediv_ok by lra; cbn [bind]).
  rewrite non_dim_short by (cbn; lra || exact Hlen). reflexivity.
Qed.

(** What every constructed object satisfies. *)
Lemma init_units (state0 statet : list R) (Isp c g : R) (o : string) (p : bool)
    (self : simple_landing) :
  __init__ state0 statet Isp c g o p = Ok self ->
  self_R self = 1000 /\ self_V self = 100 /\ self_M self = 10000 /\
  self_G0 self = 981 / 100 / (100 * 100 / 1000) /\
  self_objfun_type self = o /\ self_pinpoint self = p.
Proof.
  unfold __init__.
  repeat (rewrite truediv_ok by lra; cbn [bind]).
  intros H.
  apply bind_Ok_inv in H. destruct H as [s0 [_ H]].
  apply bind_Ok_inv in H. destruct H as [st [_ H]].
  injection H as <-. cbn. repeat split; reflexivity.
Qed.

(** C8.  On the object that the constructor builds, [_non_dim] divides the
    positions of a 5-vector [x, y, vx, vy, m] by [R], the velocities by [V]
    and the mass by [M]; [_dim_back] multiplies by the same constants; and
    [_dim_back] after [_non_dim] returns the state it started from (exactly,
    in real arithmetic). *)
Theorem dim_back_non_dim_identity
    (state0 statet : list R) (Isp c g : R) (o : string) (p : bool)
    (self : simple_landing) (x y vx vy m : R) :
  __init__ state0 statet Isp c g o p = Ok self ->
  _non_dim self [x; y; vx; vy; m] =
    Ok [x / self_R self; y / self_R self; vx / self_V self;
        vy / self_V self; m / self_M self] /\
  _dim_back self [x; y; vx; vy; m] =
    Ok [x * self_R self; y * self_R self; vx * self_V self;
        vy * self_V self; m * self_M self] /\
  (xnd <- _non_dim self [x; y; vx; vy; m] ;; _dim_back self xnd) =
    Ok [x; y; vx; vy; m].
Proof.
  intros Hinit. apply init_units in Hinit.
  destruct Hinit as [HR [HV [HM _]]].
  assert (NR : self_R self <> 0) by (rewrite HR; lra).
  assert (NV : self_V self <> 0) by (rewrite HV; lra).
  assert (NM : self_M self <> 0) by (rewrite HM; lra).
  split; [| split].
  - apply non_dim_five; assumption.
  - apply dim_back_five.
  - rewrite non_dim_five by assumption. cbn [bind].
    rewrite dim_back_five.
    replace (x / self_R self * self_R self) with x by (field; assumption).
    replace (y / self_R self * self_R self) with y by (field; assumption).
    replace (vx / self_V self * self_V self) with vx by (field; assumption).
    replace (vy / self_V self * self_V self) with vy by (field; assumption).
    replace (m / self_M self * self_M self) with m by (field; assumption).
    reflexivity.
Qed.

Lemma dim_back_non_dim_identity_witness :
  __init__ default_state0 default_statet 311 44000 (16229 / 10000) "QC" false =
    Ok default_problem /\
  (xnd <- _non_dim default_problem [0; 1000; 20; -5; 10000] ;;
   _dim_back default_problem xnd) = Ok [0; 1000; 20; -5; 10000].
Proof.
  split.
  - exact init_default.
  - exact (proj2 (proj2 (dim_back_non_dim_identity
             default_state0 default_statet 311 44000 (16229 / 10000)
             "QC" false default_problem 0 1000 20 (-5) 10000 init_default))).
Defined.

(** C9, as the constructor behaves.  The constructor validates nothing: on
    every initial and target state of at least five components, and for
    every specific impulse, thrust and gravity, of any sign, it returns a
    problem object holding the scaled values. *)
Theorem init_never_rejects (x0 y0 vx0 vy0 m0 : R) (r0 : list R)
    (xt yt vxt vyt mt : R) (rt : list R) (Isp c g : R)
    (objfun_type : string) (pinpoint : bool) :
  exists self,
    __init__ (x0 :: y0 :: vx0 :: vy0 :: m0 :: r0)
             (xt :: yt :: vxt :: vyt :: mt :: rt) Isp c g objfun_type pinpoint
      = Ok self /\
    self_Isp self = Isp / (1000 / 100) /\
    self_c self = c / (10000 * (100 * 100 / 1000)) /\
    self_g self = g / (100 * 100 / 1000) /\
    self_state0 self =
      x0 / 1000 :: y0 / 1000 :: vx0 / 100 :: vy0 / 100 :: m0 / 10000 :: r0 /\
    self_statet self =
      xt / 1000 :: yt / 1000 :: vxt / 100 :: vyt / 100 :: mt / 10000 :: rt /\
    self_objfun_type self = objfun_type /\
    self_pinpoint self = pinpoint.
Proof.
  eexists. split.
  - apply init_value.
  - cbn. repeat split; reflexivity.
Qed.

(** C9 fails as stated: a negative specific impulse, a negative thrust and
    negative masses are all accepted. *)
Lemma init_accepts_nonphysical :
  (exists self,
     __init__ default_state0 default_statet (-311) 44000 (16229 / 10000)
              "QC" false = Ok self /\ self_Isp self < 0) /\
  (exists self,
     __init__ default_state0 default_statet 311 (-44000) (16229 / 10000)
              "QC" false = Ok self /\ self_c self < 0) /\
  (exists self,
     __init__ [0; 1000; 20; -5; -10000] [0; 0; 0; 0; -1] 311 44000
              (16229 / 10000) "QC" false = Ok self /\
     nth 4 (self_state0 self) 0 < 0 /\ nth 4 (self_statet self) 0 < 0).
Proof.
  unfold default_state0, default_statet.
  split; [| split]; eexists; (split; [apply init_value |]); cbn; lra.
Qed.

(** ** The control law *)

Section ControlLaw.

Variable self : simple_landing.
Variables x y vx vy m lx ly lvx lvy lm : R.

Local Abbreviation full_state := [x; y; vx; vy; m; lx; ly; lvx; lvy; lm].
Local Abbreviation lv_norm := (sqrt (lvx ^ 2 + lvy ^ 2)).

(** The quadratic branch. *)
Lemma control_law_QC :
  self_objfun_type self = "QC"%string ->
  self_c self <> 0 ->
  0 < lv_norm ->
  0 < m ->
  _pontryagin_minimum_principle self full_state =
    Ok [throttle_QC self m lvx lvy lm; - lvx / lv_norm; - lvy / lv_norm].
Proof.
  intros HQ Hc Hn Hm.
  unfold _pontryagin_minimum_principle.
  rewrite HQ. cbn.
  rewrite math_sqrt_ok by apply sum_sq_nonneg. cbn.
  rewrite !truediv_ok by lra. cbn.
  rewrite max_Rmax, min_Rmin. unfold throttle_QC, clamp.
  do 4 f_equal. field. split; lra.
Qed.

(** The mass-optimal branch: the two tests on [S] taken together. *)
Lemma control_law_MOC (u : R) :
  self_objfun_type self = "MOC"%string ->
  0 < lv_norm ->
  0 < m ->
  (if Rlt_dec (switching self m lvx lvy lm) 0 then 1 else 0) = u ->
  _pontryagin_minimum_principle self full_state =
    Ok [u; - lvx / lv_norm; - lvy / lv_norm].
Proof.
  intros HM Hn Hm Hu.
  unfold _pontryagin_minimum_principle.
  rewrite HM. cbn.
  rewrite math_sqrt_ok by apply sum_sq_nonneg. cbn.
  rewrite !truediv_ok by lra. cbn.
  fold (switching self m lvx lvy lm).
  destruct (Rlt_dec (switching self m lvx lvy lm) 0) as [L | L];
    destruct (Rge_dec (switching self m lvx lvy lm) 0) as [G | G];
    cbn; subst u; try reflexivity.
  exfalso. apply G. apply Rnot_lt_ge. exact L.
Qed.

(** There is no guard on [lv_norm]: when it is zero, the division of
    [-lvx] by it is carried out and raises. *)
Lemma control_law_singular :
  lv_norm = 0 ->
  _pontryagin_minimum_principle self full_state = Raise ZeroDivisionError.
Proof.
  intros Hn. unfold _pontryagin_minimum_principle. cbn.
  rewrite math_sqrt_ok by apply sum_sq_nonneg. cbn.
  rewrite Hn, truediv_zero. reflexivity.
Qed.

(** With an objective type that is neither "QC" nor "MOC", no branch of the
    control law assigns [u]. *)
Lemma control_law_unbound :
  self_objfun_type self <> "QC"%string ->
  self_objfun_type self <> "MOC"%string ->
  lv_norm <> 0 ->
  _pontryagin_minimum_principle self full_state = Raise UnboundLocalError.
Proof.
  intros HQ HM Hn. unfold _pontryagin_minimum_principle. cbn.
  rewrite math_sqrt_ok by apply sum_sq_nonneg. cbn.
  rewrite !truediv_ok by assumption. cbn.
  apply String.eqb_neq in HQ, HM. rewrite HQ, HM. reflexivity.
Qed.

(** Nor does any branch of the running cost assign [retval]. *)
Lemma cost_unbound (state : list R) (u stheta ctheta : R) :
  self_objfun_type self <> "QC"%string ->
  self_objfun_type self <> "MOC"%string ->
  _cost self state [u; stheta; ctheta] = Raise UnboundLocalError.
Proof.
  intros HQ HM. unfold _cost. cbn.
  apply String.eqb_neq in HQ, HM. rewrite HQ, HM. reflexivity.
Qed.


(** The Hamiltonian, once the control law has returned a triple, under
    either objective. *)
Lemma hamiltonian_value (u stheta ctheta : R) :
  _pontryagin_minimum_principle self full_state = Ok [u; stheta; ctheta] ->
  self_objfun_type self = "QC"%string \/ self_objfun_type self = "MOC"%string ->
  m <> 0 ->
  self_Isp self <> 0 ->
  self_G0 self <> 0 ->
  _hamiltonian self full_state =
    Ok (hamiltonian_closed self vx vy m lx ly lvx lvy lm u stheta ctheta).
Proof.
  intros Hp Ho Hm HI HG. unfold _hamiltonian. rewrite Hp. cbn [bind].
  unfold _eom_state, _cost, hamiltonian_closed, running_cost.
  destruct Ho as [Ho | Ho]; rewrite Ho; cbn;
    repeat (rewrite truediv_ok
              by (assumption || (apply Rdiv_nonzero; assumption)); cbn);
    f_equal; field; repeat split; assumption.
Qed.

(** The right-hand side of the augmented system, likewise. *)
Lemma eom_value (t u stheta ctheta : R) :
  _pontryagin_minimum_principle self full_state = Ok [u; stheta; ctheta] ->
  m <> 0 ->
  self_Isp self <> 0 ->
  self_G0 self <> 0 ->
  _eom self full_state t =
    Ok [vx; vy;
        self_c self * u / m * stheta;
        self_c self * u / m * ctheta - self_g self;
        - self_c self * u / self_Isp self / self_G0 self;
        0; 0; - lx; - ly;
        self_c self * u / m ^ 2 * (lvx * stheta + lvy * ctheta)].
Proof.
  intros Hp Hm HI HG. unfold _eom. rewrite Hp. cbn [bind].
  unfold _eom_state, _eom_costate. cbn.
  assert (Hm2 : m ^ 2 <> 0) by (apply pow_nonzero; exact Hm).
  repeat (rewrite truediv_ok
            by (assumption || (apply Rdiv_nonzero; assumption)); cbn).
  reflexivity.
Qed.

End ControlLaw.

(** C4.  Under "QC", on a state with [lv_norm > 0] and [m > 0] (and a thrust
    [c] that can be divided by), the control law returns the throttle
    [clamp((lm + lv_norm*Isp*g0/m)/c, 0, 1)] together with the direction
    opposed to the velocity costate, and the throttle lies in [[0, 1]]. *)
Theorem quadratic_control_throttle (self : simple_landing)
    (x y vx vy m lx ly lvx lvy lm : R) :
  self_objfun_type self = "QC"%string ->
  self_c self <> 0 ->
  0 < sqrt (lvx ^ 2 + lvy ^ 2) ->
  0 < m ->
  _pontryagin_minimum_principle self [x; y; vx; vy; m; lx; ly; lvx; lvy; lm] =
    Ok [clamp ((lm + sqrt (lvx ^ 2 + lvy ^ 2) * self_Isp self * self_G0 self / m)
               / self_c self) 0 1;
        - lvx / sqrt (lvx ^ 2 + lvy ^ 2);
        - lvy / sqrt (lvx ^ 2 + lvy ^ 2)] /\
  0 <= clamp ((lm + sqrt (lvx ^ 2 + lvy ^ 2) * self_Isp self * self_G0 self / m)
              / self_c self) 0 1 <= 1.
Proof.
  intros HQ Hc Hn Hm. split.
  - apply control_law_QC; assumption.
  - apply clamp_bounds.
Qed.

Lemma quadratic_control_throttle_witness :
  (self_objfun_type default_problem = "QC"%string /\
   self_c default_problem <> 0 /\ 0 < sqrt (0 ^ 2 + 1 ^ 2) /\ 0 < 1) /\
  0 <= clamp ((0 + sqrt (0 ^ 2 + 1 ^ 2) * self_Isp default_problem *
                 self_G0 default_problem / 1) / self_c default_problem) 0 1
    <= 1.
Proof.
  assert (HQ : self_objfun_type default_problem = "QC"%string) by reflexivity.
  assert (Hc : self_c default_problem <> 0) by (cbn; lra).
  assert (Hn : 0 < sqrt (0 ^ 2 + 1 ^ 2)) by (rewrite sqrt_0_1; lra).
  assert (Hm : 0 < 1) by lra.
  split.
  - repeat split; assumption.
  - exact (proj2 (quadratic_control_throttle default_problem
                    0 1 (1 / 5) (-1 / 20) 1 0 0 0 1 0 HQ Hc Hn Hm)).
Defined.

(** C5.  Under "MOC", on a state with [lv_norm > 0] and [m > 0], the
    throttle is exactly 0 when the switching function
    [S = 1 - lm - lv_norm/m*Isp*g0] is at least 0 and exactly 1 when it is
    below 0. *)
Theorem mass_optimal_throttle (self : simple_landing)
    (x y vx vy m lx ly lvx lvy lm : R) :
  self_objfun_type self = "MOC"%string ->
  0 < sqrt (lvx ^ 2 + lvy ^ 2) ->
  0 < m ->
  (1 - lm - sqrt (lvx ^ 2 + lvy ^ 2) / m * self_Isp self * self_G0 self >= 0 ->
   _pontryagin_minimum_principle self [x; y; vx; vy; m; lx; ly; lvx; lvy; lm] =
     Ok [0; - lvx / sqrt (lvx ^ 2 + lvy ^ 2);
         - lvy / sqrt (lvx ^ 2 + lvy ^ 2)]) /\
  (1 - lm - sqrt (lvx ^ 2 + lvy ^ 2) / m * self_Isp self * self_G0 self < 0 ->
   _pontryagin_minimum_principle self [x; y; vx; vy; m; lx; ly; lvx; lvy; lm] =
     Ok [1; - lvx / sqrt (lvx ^ 2 + lvy ^ 2);
         - lvy / sqrt (lvx ^ 2 + lvy ^ 2)]).
Proof.
  intros HM Hn Hm.
  fold (switching self m lvx lvy lm).
  split; intros HS; apply control_law_MOC; try assumption;
    destruct (Rlt_dec (switching self m lvx lvy lm) 0) as [L | L];
    try reflexivity; lra.
Qed.

Lemma mass_optimal_throttle_witness :
  (self_objfun_type moc_problem = "MOC"%string /\
   0 < sqrt (0 ^ 2 + 1 ^ 2) /\ 0 < 1) /\
  _pontryagin_minimum_principle moc_problem
    [0; 1; 1 / 5; -1 / 20; 1; 0; 0; 0; 1; 0] =
  Ok [1; - 0 / sqrt (0 ^ 2 + 1 ^ 2); - 1 / sqrt (0 ^ 2 + 1 ^ 2)].
Proof.
  assert (HM : self_objfun_type moc_problem = "MOC"%string) by reflexivity.
  assert (Hn : 0 < sqrt (0 ^ 2 + 1 ^ 2)) by (rewrite sqrt_0_1; lra).
  assert (Hm : 0 < 1) by lra.
  split.
  - repeat split; assumption.
  - apply (proj2 (mass_optimal_throttle moc_problem
                    0 1 (1 / 5) (-1 / 20) 1 0 0 0 1 0 HM Hn Hm)).
    rewrite sqrt_0_1. cbn. lra.
Defined.

(** On a state with [lv_norm > 0] and [m > 0], under an objective whose
    throttle is defined, the control law returns: a throttle in [[0, 1]] and
    the velocity costate divided by [-lv_norm] as direction. *)
Lemma control_law_regular (self : simple_landing)
    (x y vx vy m lx ly lvx lvy lm : R) :
  0 < sqrt (lvx ^ 2 + lvy ^ 2) ->
  0 < m ->
  (self_objfun_type self = "QC"%string /\ self_c self <> 0) \/
  self_objfun_type self = "MOC"%string ->
  exists u,
    0 <= u <= 1 /\
    _pontryagin_minimum_principle self [x; y; vx; vy; m; lx; ly; lvx; lvy; lm] =
      Ok [u; - lvx / sqrt (lvx ^ 2 + lvy ^ 2);
          - lvy / sqrt (lvx ^ 2 + lvy ^ 2)].
Proof.
  intros Hn Hm [[HQ Hc] | HM].
  - exists (throttle_QC self m lvx lvy lm). split.
    + apply clamp_bounds.
    + apply control_law_QC; assumption.
  - destruct (Rlt_dec (switching self m lvx lvy lm) 0) as [L | L].
    + exists 1. split; [lra |].
      apply control_law_MOC; try assumption.
      destruct (Rlt_dec _ 0); [reflexivity | contradiction].
    + exists 0. split; [lra |].
      apply control_law_MOC; try assumption.
      destruct (Rlt_dec _ 0); [contradiction | reflexivity].
Qed.




(** C10, as the code behaves.  An objective type other than "QC" and "MOC"
    is stored by the constructor as it is; afterwards no branch of the
    running cost assigns [retval], and no branch of the control law assigns
    [u], so every evaluation of the running cost, and every evaluation of
    the control law on a state with [lv_norm <> 0], raises
    [UnboundLocalError]. *)
Theorem unknown_objfun_type_unbound (o : string) :
  o <> "QC"%string ->
  o <> "MOC"%string ->
  (forall (x0 y0 vx0 vy0 m0 : R) (r0 : list R) (xt yt vxt vyt mt : R)
          (rt : list R) (Isp c g : R) (p : bool),
     exists self,
       __init__ (x0 :: y0 :: vx0 :: vy0 :: m0 :: r0)
                (xt :: yt :: vxt :: vyt :: mt :: rt) Isp c g o p = Ok self /\
       self_objfun_type self = o) /\
  (forall self : simple_landing,
     self_objfun_type self = o ->
     (forall (state : list R) (u stheta ctheta : R),
        _cost self state [u; stheta; ctheta] = Raise UnboundLocalError) /\
     (forall x y vx vy m lx ly lvx lvy lm : R,
        sqrt (lvx ^ 2 + lvy ^ 2) <> 0 ->
        _pontryagin_minimum_principle self
          [x; y; vx; vy; m; lx; ly; lvx; lvy; lm] = Raise UnboundLocalError)).
Proof.
  intros HQ HM. split.
  - intros. eexists. split; [apply init_value | reflexivity].
  - intros self Ho. rewrite <- Ho in HQ, HM. split.
    + intros. apply cost_unbound; assumption.
    + intros. apply control_law_unbound; assumption.
Qed.

Lemma unknown_objfun_type_unbound_witness :
  ("LQ" <> "QC" /\ "LQ" <> "MOC")%string /\
  exists self,
    __init__ default_state0 default_statet 311 44000 (16229 / 10000) "LQ" true
      = Ok self /\
    self_objfun_type self = "LQ"%string.
Proof.
  assert (HQ : ("LQ" <> "QC")%string) by discriminate.
  assert (HM : ("LQ" <> "MOC")%string) by discriminate.
  split.
  - split; assumption.
  - exact (proj1 (unknown_objfun_type_unbound "LQ" HQ HM)
             0 1000 20 (-5) 10000 [] 0 0 0 0 (9758695805 / 1000000) []
             311 44000 (16229 / 10000) true).
Defined.

(** C10 fails as stated: with the objective type "LQ", the control law on a
    state whose velocity costates are zero does not reach the if/elif chain;
    it raises [ZeroDivisionError] at the thrust direction, not
    [UnboundLocalError]. *)
Lemma unknown_objfun_type_singular_state :
  exists self,
    __init__ default_state0 default_statet 311 44000 (16229 / 10000) "LQ" true
      = Ok self /\
    _pontryagin_minimum_principle self [0; 0; 0; 0; 1; 0; 0; 0; 0; 0]
      = Raise ZeroDivisionError /\
    _pontryagin_minimum_principle self [0; 0; 0; 0; 1; 0; 0; 0; 0; 0]
      <> Raise UnboundLocalError.
Proof.
  eexists. split; [apply init_value |].
  assert (E : forall self,
    _pontryagin_minimum_principle self [0; 0; 0; 0; 1; 0; 0; 0; 0; 0]
      = Raise ZeroDivisionError)
    by (intros; apply control_law_singular; exact sqrt_0_0).
  split; [apply E | rewrite E; discriminate].
Qed.

(** ** The costate dynamics *)

Lemma eom_state_shape (self : simple_landing) (state controls d : list R) :
  _eom_state self state controls = Ok d -> List.length d = 5%nat.
Proof.
  unfold _eom_state. intros H.
  apply bind_Ok_inv in H. destruct H as [[[[[x y] vx] vy] m] [_ H]].
  apply bind_Ok_inv in H. destruct H as [[[u st] ct] [_ H]].
  repeat (apply bind_Ok_inv in H; destruct H as [? [_ H]]).
  injection H as <-. reflexivity.
Qed.

Lemma eom_costate_shape (self : simple_landing) (full_state controls d : list R) :
  _eom_costate self full_state controls = Ok d ->
  exists a b e, d = [0; 0; a; b; e].
Proof.
  unfold _eom_costate. intros H.
  apply bind_Ok_inv in H.
  destruct H as [[[[[[[[[[x y] vx] vy] m] lx] ly] lvx] lvy] lm] [_ H]].
  apply bind_Ok_inv in H. destruct H as [[[u st] ct] [_ H]].
  apply bind_Ok_inv in H. destruct H as [q [_ H]].
  injection H as <-. eexists _, _, _. reflexivity.
Qed.

(** C7.  On a state with [m <> 0] the costate derivatives are
    [0, 0, -lx, -ly, c*u*(lvx*sin + lvy*cos)/m^2]; and in every right-hand
    side that [_eom] returns, the derivatives of [lx] and [ly] (components 5
    and 6) are zero, so both are constant along a trajectory. *)
Theorem costate_derivatives (self : simple_landing)
    (x y vx vy m lx ly lvx lvy lm u stheta ctheta : R) :
  m <> 0 ->
  _eom_costate self [x; y; vx; vy; m; lx; ly; lvx; lvy; lm] [u; stheta; ctheta] =
    Ok [0; 0; - lx; - ly;
        self_c self * u * (lvx * stheta + lvy * ctheta) / m ^ 2] /\
  (forall (full_state : list R) (t : R) (d : list R),
     _eom self full_state t = Ok d ->
     getitem d 5 = Ok 0 /\ getitem d 6 = Ok 0).
Proof.
  intros Hm. split.
  - unfold _eom_costate. cbn.
    rewrite truediv_ok by (apply pow_nonzero; exact Hm). cbn.
    do 6 f_equal. field. exact Hm.
  - intros full_state t d H. unfold _eom in H.
    apply bind_Ok_inv in H. destruct H as [controls [_ H]].
    apply bind_Ok_inv in H. destruct H as [dstate [Hs H]].
    apply bind_Ok_inv in H. destruct H as [dcostate [Hc H]].
    injection H as <-.
    apply eom_state_shape in Hs. apply eom_costate_shape in Hc.
    destruct Hc as [a [b [e ->]]].
    destruct dstate as [| d0 [| d1 [| d2 [| d3 [| d4 [| d5 rest]]]]]];
      cbn in Hs; try discriminate Hs.
    split; reflexivity.
Qed.

Lemma costate_derivatives_witness :
  1 <> 0 /\
  _eom_costate default_problem [0; 1; 1 / 5; -1 / 20; 1; 2; 3; 0; 1; 0]
    [1; 0; -1] =
  Ok [0; 0; - 2; - 3; self_c default_problem * 1 * (0 * 0 + 1 * -1) / 1 ^ 2].
Proof.
  assert (Hm : 1 <> 0) by lra.
  split.
  - exact Hm.
  - exact (proj1 (costate_derivatives default_problem
                    0 1 (1 / 5) (-1 / 20) 1 2 3 0 1 0 1 0 (-1) Hm)).
Defined.

(** ** Shooting *)

(** The Hamiltonian of the default problem at the row [row_still]. *)
Lemma hamiltonian_still : _hamiltonian default_problem row_still = Ok h_still.
Proof.
  unfold row_still, h_still.
  assert (Hn : 0 < sqrt (0 ^ 2 + 1 ^ 2)) by (rewrite sqrt_0_1; lra).
  apply hamiltonian_value.
  - apply control_law_QC; [reflexivity | cbn; lra | exact Hn | lra].
  - left. reflexivity.
  - lra.
  - cbn. lra.
  - cbn. lra.
Qed.

Section Residuals.

Variable odeint :
  (list R -> R -> result (list R)) -> list R -> list R ->
  result (list (list R) * infodict).
Variable self : simple_landing.
Variable x : list R.
Variable xf : list (list R).
Variable info : infodict.
Variables px py pvx pvy pm lx ly lvx lvy lm : R.
Variables tx ty tvx tvy tm : R.
Variable rest : list R.
Variable h : R.

Hypothesis shot : _shoot odeint self x = Ok (xf, info).
Hypothesis final_row :
  getlast xf = Ok [px; py; pvx; pvy; pm; lx; ly; lvx; lvy; lm].
Hypothesis target : self_statet self = tx :: ty :: tvx :: tvy :: tm :: rest.
Hypothesis hamiltonian_final :
  _hamiltonian self [px; py; pvx; pvy; pm; lx; ly; lvx; lvy; lm] = Ok h.

(** The residual vector, whatever the integrator reports in [info]. *)
Lemma constraints_assembled :
  _compute_constraints_impl odeint self x =
  Ok [if self_pinpoint self then 100 * (px - tx) else 100 * lx;
      100 * (py - ty); 100 * (pvx - tvx); 100 * (pvy - tvy);
      100 * lm; 100 * h].
Proof.
  unfold _compute_constraints_impl.
  rewrite shot. cbn [bind]. rewrite final_row, target. cbn.
  destruct (self_pinpoint self); cbn; rewrite hamiltonian_final; cbn;
    rewrite !(Rmult_comm 100); reflexivity.
Qed.

End Residuals.

(** The shooting of the default problem from [x_still], with the integrator
    that stays on the initial row and reports [msg]. *)
Lemma shoot_still (msg : string) :
  _shoot (odeint_still msg) default_problem x_still =
    Ok ([row_still; row_still], {| message := msg |}).
Proof. reflexivity. Qed.

Lemma constraints_still (msg : string) :
  _compute_constraints_impl (odeint_still msg) default_problem x_still =
  Ok [100 * 0; 100 * (1000 / 1000 - 0 / 1000); 100 * (20 / 100 - 0 / 100);
      100 * (-5 / 100 - 0 / 100); 100 * 0; 100 * h_still].
Proof.
  apply (constraints_assembled (odeint_still msg) default_problem x_still
           [row_still; row_still] {| message := msg |}
           (0 / 1000) (1000 / 1000) (20 / 100) (-5 / 100) (10000 / 10000)
           0 0 0 1 0
           (0 / 1000) (0 / 1000) (0 / 100) (0 / 100)
           (9758695805 / 1000000 / 10000) []).
  - apply shoot_still.
  - reflexivity.
  - reflexivity.
  - exact hamiltonian_still.
Qed.

(** C1, as the residuals are assembled.  After a successful propagation the
    components 1, 2 and 3 of the residual vector are 100 times the final
    [y] minus the target [y], the final [vx] minus the target [vx], and the
    final [vy] minus the target [vy]: the indices 1, 2, 3 of the rows
    [x, y, vx, vy, m]. *)
Theorem final_conditions_residuals
    (odeint : (list R -> R -> result (list R)) -> list R -> list R ->
              result (list (list R) * infodict))
    (self : simple_landing) (x : list R) (xf : list (list R)) (info : infodict)
    (px py pvx pvy pm lx ly lvx lvy lm tx ty tvx tvy tm : R) (rest : list R)
    (h : R) :
  _shoot odeint self x = Ok (xf, info) ->
  integration_successful info ->
  getlast xf = Ok [px; py; pvx; pvy; pm; lx; ly; lvx; lvy; lm] ->
  self_statet self = tx :: ty :: tvx :: tvy :: tm :: rest ->
  _hamiltonian self [px; py; pvx; pvy; pm; lx; ly; lvx; lvy; lm] = Ok h ->
  exists c0 c4 c5,
    _compute_constraints_impl odeint self x =
    Ok [c0; 100 * (py - ty); 100 * (pvx - tvx); 100 * (pvy - tvy); c4; c5].
Proof.
  intros Hs _ Hrow Ht Hh. eexists _, _, _.
  eapply constraints_assembled; eassumption.
Qed.

Lemma final_conditions_residuals_witness :
  (_shoot (odeint_still successful) default_problem x_still =
     Ok ([row_still; row_still], {| message := successful |}) /\
   integration_successful {| message := successful |} /\
   getlast [row_still; row_still] = Ok row_still /\
   self_statet default_problem =
     [0 / 1000; 0 / 1000; 0 / 100; 0 / 100; 9758695805 / 1000000 / 10000] /\
   _hamiltonian default_problem row_still = Ok h_still) /\
  exists c0 c4 c5,
    _compute_constraints_impl (odeint_still successful) default_problem x_still =
    Ok [c0; 100 * (1000 / 1000 - 0 / 1000); 100 * (20 / 100 - 0 / 100);
        100 * (-5 / 100 - 0 / 100); c4; c5].
Proof.
  split.
  - repeat split. exact hamiltonian_still.
  - exact (final_conditions_residuals (odeint_still successful)
             default_problem x_still [row_still; row_still]
             {| message := successful |}
             (0 / 1000) (1000 / 1000) (20 / 100) (-5 / 100) (10000 / 10000)
             0 0 0 1 0
             (0 / 1000) (0 / 1000) (0 / 100) (0 / 100)
             (9758695805 / 1000000 / 10000) [] h_still
             (shoot_still successful) eq_refl eq_refl eq_refl
             hamiltonian_still).
Defined.

(** C1 fails as stated.  On the default problem, with a propagation that
    succeeds and ends on the row
    [x, y, vx, vy, m = 0, 1, 0.2, -0.05, 1] against the target
    [0, 0, 0, 0, 0.9758695805], component 1 is not 100 times the velocity
    difference in [x], component 2 not the one in [y], and component 3 not
    100 times the mass difference. *)
Lemma final_conditions_not_velocity_mass :
  exists ceq,
    _shoot (odeint_still successful) default_problem x_still =
      Ok ([row_still; row_still], {| message := successful |}) /\
    integration_successful {| message := successful |} /\
    _compute_constraints_impl (odeint_still successful) default_problem x_still
      = Ok ceq /\
    getitem ceq 1 <> Ok (100 * (20 / 100 - 0 / 100)) /\
    getitem ceq 2 <> Ok (100 * (-5 / 100 - 0 / 100)) /\
    getitem ceq 3 <>
      Ok (100 * (10000 / 10000 - 9758695805 / 1000000 / 10000)).
Proof.
  eexists. split; [apply shoot_still |]. split; [reflexivity |].
  split; [apply constraints_still |].
  cbn. repeat split; intros H; injection H as H; lra.
Qed.

(** C2.  After a successful propagation, component 4 of the residual vector
    is 100 times the final mass costate, component 0 is 100 times the final
    [x] minus the target [x] when [pinpoint] is set and 100 times the final
    position costate [lx] otherwise, and component 5 is 100 times the
    Hamiltonian at the final row. *)
Theorem transversality_residuals
    (odeint : (list R -> R -> result (list R)) -> list R -> list R ->
              result (list (list R) * infodict))
    (self : simple_landing) (x : list R) (xf : list (list R)) (info : infodict)
    (px py pvx pvy pm lx ly lvx lvy lm tx ty tvx tvy tm : R) (rest : list R)
    (h : R) :
  _shoot odeint self x = Ok (xf, info) ->
  integration_successful info ->
  getlast xf = Ok [px; py; pvx; pvy; pm; lx; ly; lvx; lvy; lm] ->
  self_statet self = tx :: ty :: tvx :: tvy :: tm :: rest ->
  _hamiltonian self [px; py; pvx; pvy; pm; lx; ly; lvx; lvy; lm] = Ok h ->
  exists c1 c2 c3,
    _compute_constraints_impl odeint self x =
    Ok [if self_pinpoint self then 100 * (px - tx) else 100 * lx;
        c1; c2; c3; 100 * lm; 100 * h].
Proof.
  intros Hs _ Hrow Ht Hh. eexists _, _, _.
  eapply constraints_assembled; eassumption.
Qed.

Lemma transversality_residuals_witness :
  (_shoot (odeint_still successful) default_problem x_still =
     Ok ([row_still; row_still], {| message := successful |}) /\
   integration_successful {| message := successful |} /\
   getlast [row_still; row_still] = Ok row_still /\
   self_statet default_problem =
     [0 / 1000; 0 / 1000; 0 / 100; 0 / 100; 9758695805 / 1000000 / 10000] /\
   _hamiltonian default_problem row_still = Ok h_still) /\
  exists c1 c2 c3,
    _compute_constraints_impl (odeint_still successful) default_problem x_still =
    Ok [100 * 0; c1; c2; c3; 100 * 0; 100 * h_still].
Proof.
  split.
  - repeat split. exact hamiltonian_still.
  - exact (transversality_residuals (odeint_still successful)
             default_problem x_still [row_still; row_still]
             {| message := successful |}
             (0 / 1000) (1000 / 1000) (20 / 100) (-5 / 100) (10000 / 10000)
             0 0 0 1 0
             (0 / 1000) (0 / 1000) (0 / 100) (0 / 100)
             (9758695805 / 1000000 / 10000) [] h_still
             (shoot_still successful) eq_refl eq_refl eq_refl
             hamiltonian_still).
Defined.

(** C3, as the evaluation behaves.  The diagnostics of the integrator are
    never inspected: when the propagation reports a failure, the evaluation
    does not abort, and the residual vector is assembled from the final row
    that the integrator returned, by the same formulas as after a
    success. *)
Theorem failed_propagation_still_assembled
    (odeint : (list R -> R -> result (list R)) -> list R -> list R ->
              result (list (list R) * infodict))
    (self : simple_landing) (x : list R) (xf : list (list R)) (info : infodict)
    (px py pvx pvy pm lx ly lvx lvy lm tx ty tvx tvy tm : R) (rest : list R)
    (h : R) :
  _shoot odeint self x = Ok (xf, info) ->
  ~ integration_successful info ->
  getlast xf = Ok [px; py; pvx; pvy; pm; lx; ly; lvx; lvy; lm] ->
  self_statet self = tx :: ty :: tvx :: tvy :: tm :: rest ->
  _hamiltonian self [px; py; pvx; pvy; pm; lx; ly; lvx; lvy; lm] = Ok h ->
  _compute_constraints_impl odeint self x =
  Ok [if self_pinpoint self then 100 * (px - tx) else 100 * lx;
      100 * (py - ty); 100 * (pvx - tvx); 100 * (pvy - tvy);
      100 * lm; 100 * h].
Proof.
  intros Hs _ Hrow Ht Hh.
  eapply constraints_assembled; eassumption.
Qed.

Lemma excess_work_not_successful :
  ~ integration_successful {| message := excess_work |}.
Proof. unfold integration_successful. cbn. discriminate. Qed.

Lemma failed_propagation_still_assembled_witness :
  (_shoot (odeint_still excess_work) default_problem x_still =
     Ok ([row_still; row_still], {| message := excess_work |}) /\
   ~ integration_successful {| message := excess_work |} /\
   getlast [row_still; row_still] = Ok row_still /\
   self_statet default_problem =
     [0 / 1000; 0 / 1000; 0 / 100; 0 / 100; 9758695805 / 1000000 / 10000] /\
   _hamiltonian default_problem row_still = Ok h_still) /\
  _compute_constraints_impl (odeint_still excess_work) default_problem x_still =
  Ok [100 * 0; 100 * (1000 / 1000 - 0 / 1000); 100 * (20 / 100 - 0 / 100);
      100 * (-5 / 100 - 0 / 100); 100 * 0; 100 * h_still].
Proof.
  split.
  - split; [reflexivity |]. split; [exact excess_work_not_successful |].
    repeat split. exact hamiltonian_still.
  - exact (failed_propagation_still_assembled (odeint_still excess_work)
             default_problem x_still [row_still; row_still]
             {| message := excess_work |}
             (0 / 1000) (1000 / 1000) (20 / 100) (-5 / 100) (10000 / 10000)
             0 0 0 1 0
             (0 / 1000) (0 / 1000) (0 / 100) (0 / 100)
             (9758695805 / 1000000 / 10000) [] h_still
             (shoot_still excess_work) excess_work_not_successful
             eq_refl eq_refl hamiltonian_still).
Defined.

(** C3 fails as stated: on the default problem, with an integrator that
    exhausts its step budget without leaving the initial row and reports
    so, the evaluation returns a residual vector, not an error. *)
Lemma failed_propagation_not_reported :
  exists xf info ceq,
    _shoot (odeint_still excess_work) default_problem x_still = Ok (xf, info) /\
    ~ integration_successful info /\
    _compute_constraints_impl (odeint_still excess_work) default_problem x_still
      = Ok ceq.
Proof.
  eexists _, _, _. split; [apply shoot_still |].
  split; [exact excess_work_not_successful |].
  apply constraints_still.
Qed.

(** * Further properties of the code *)

(** ** Scaling of states of any length *)

Lemma five_components (l : list R) :
  (5 <= List.length l)%nat -> exists a b c d e r, l = a :: b :: c :: d :: e :: r.
Proof.
  intros H. do 5 (destruct l as [| ? l]; [cbn in H; lia |]).
  eexists _, _, _, _, _, _. reflexivity.
Qed.

Lemma dim_back_short (self : simple_landing) (state : list R) :
  (List.length state < 5)%nat -> _dim_back self state = Raise IndexError.
Proof.
  intros Hlen. unfold _dim_back, imul_item.
  destruct state as [| x [| y [| vx [| vy [| m rest]]]]]; cbn; try reflexivity.
  cbn in Hlen. lia.
Qed.

Lemma init_scales_nonzero (state0 statet : list R) (Isp c g : R) (o : string)
    (p : bool) (self : simple_landing) :
  __init__ state0 statet Isp c g o p = Ok self ->
  self_R self <> 0 /\ self_V self <> 0 /\ self_M self <> 0.
Proof.
  intros H. apply init_units in H. destruct H as [HR [HV [HM _]]].
  rewrite HR, HV, HM. repeat split; lra.
Qed.

(** [_non_dim] of a constructed problem returns on exactly the states of at
    least five components; it keeps the length and every component after
    the fifth, and raises [IndexError] on a shorter state. *)
Theorem non_dim_defined_from_five
    (state0 statet : list R) (Isp c g : R) (o : string) (p : bool)
    (self : simple_landing) (state : list R) :
  __init__ state0 statet Isp c g o p = Ok self ->
  ((5 <= List.length state)%nat ->
   exists r, _non_dim self state = Ok r /\
             List.length r = List.length state /\
             skipn 5 r = skipn 5 state) /\
  ((List.length state < 5)%nat -> _non_dim self state = Raise IndexError).
Proof.
  intros Hinit. apply init_scales_nonzero in Hinit.
  destruct Hinit as [NR [NV NM]]. split.
  - intros Hlen. apply five_components in Hlen.
    destruct Hlen as [a [b [c' [d [e [r ->]]]]]].
    rewrite non_dim_five by assumption.
    eexists. split; [reflexivity |]. split; reflexivity.
  - intros Hlen. apply non_dim_short; assumption.
Qed.

Lemma non_dim_defined_from_five_witness :
  __init__ default_state0 default_statet 311 44000 (16229 / 10000) "QC" false =
    Ok default_problem /\
  _non_dim default_problem [1; 2; 3; 4] = Raise IndexError.
Proof.
  split.
  - exact init_default.
  - apply (proj2 (non_dim_defined_from_five
             default_state0 default_statet 311 44000 (16229 / 10000)
             "QC" false default_problem [1; 2; 3; 4] init_default)).
    cbn. lia.
Defined.

(** [_dim_back] returns on exactly the states of at least five components,
    whatever the object; it keeps the length and every component after the
    fifth (the costates of the slices that [plot] passes), and raises
    [IndexError] on a shorter state. *)
Theorem dim_back_defined_from_five (self : simple_landing) (state : list R) :
  ((5 <= List.length state)%nat ->
   exists r, _dim_back self state = Ok r /\
             List.length r = List.length state /\
             skipn 5 r = skipn 5 state) /\
  ((List.length state < 5)%nat -> _dim_back self state = Raise IndexError).
Proof.
  split.
  - intros Hlen. apply five_components in Hlen.
    destruct Hlen as [a [b [c' [d [e [r ->]]]]]].
    rewrite dim_back_five.
    eexists. split; [reflexivity |]. split; reflexivity.
  - apply dim_back_short.
Qed.

(** On a constructed problem the two scalings are inverse of each other in
    both orders, on states of any length from five on: the components after
    the fifth pass through unchanged. *)
Theorem scalings_inverse_any_length
    (state0 statet : list R) (Isp c g : R) (o : string) (p : bool)
    (self : simple_landing) (x y vx vy m : R) (rest : list R) :
  __init__ state0 statet Isp c g o p = Ok self ->
  (xd <- _dim_back self (x :: y :: vx :: vy :: m :: rest) ;; _non_dim self xd) =
    Ok (x :: y :: vx :: vy :: m :: rest) /\
  (xnd <- _non_dim self (x :: y :: vx :: vy :: m :: rest) ;; _dim_back self xnd) =
    Ok (x :: y :: vx :: vy :: m :: rest).
Proof.
  intros Hinit. apply init_scales_nonzero in Hinit.
  destruct Hinit as [NR [NV NM]]. split.
  - rewrite dim_back_five. cbn [bind]. rewrite non_dim_five by assumption.
    replace (x * self_R self / self_R self) with x by (field; assumption).
    replace (y * self_R self / self_R self) with y by (field; assumption).
    replace (vx * self_V self / self_V self) with vx by (field; assumption).
    replace (vy * self_V self / self_V self) with vy by (field; assumption).
    replace (m * self_M self / self_M self) with m by (field; assumption).
    reflexivity.
  - rewrite non_dim_five by assumption. cbn [bind]. rewrite dim_back_five.
    replace (x / self_R self * self_R self) with x by (field; assumption).
    replace (y / self_R self * self_R self) with y by (field; assumption).
    replace (vx / self_V self * self_V self) with vx by (field; assumption).
    replace (vy / self_V self * self_V self) with vy by (field; assumption).
    replace (m / self_M self * self_M self) with m by (field; assumption).
    reflexivity.
Qed.

Lemma scalings_inverse_any_length_witness :
  __init__ default_state0 default_statet 311 44000 (16229 / 10000) "QC" false =
    Ok default_problem /\
  (xd <- _dim_back default_problem [0; 1; 1 / 5; -1 / 20; 1; 7; 8] ;;
   _non_dim default_problem xd) = Ok [0; 1; 1 / 5; -1 / 20; 1; 7; 8].
Proof.
  split.
  - exact init_default.
  - exact (proj1 (scalings_inverse_any_length
             default_state0 default_statet 311 44000 (16229 / 10000)
             "QC" false default_problem 0 1 (1 / 5) (-1 / 20) 1 [7; 8]
             init_default)).
Defined.

(** ** More on construction *)

Lemma init_short_target (state0 statet : list R) (Isp c g : R)
    (objfun_type : string) (pinpoint : bool) :
  (5 <= List.length state0)%nat ->
  (List.length statet < 5)%nat ->
  __init__ state0 statet Isp c g objfun_type pinpoint = Raise IndexError.
Proof.
  intros H0 Ht. apply five_components in H0.
  destruct H0 as [a [b [c' [d [e [r ->]]]]]].
  unfold __init__.
  repeat (rewrite truediv_ok by lra; cbn [bind]).
  rewrite non_dim_five by (cbn; lra). cbn [bind].
  rewrite non_dim_short by (cbn; lra || exact Ht). reflexivity.
Qed.

(** What the constructor returns, read backwards. *)
Lemma init_inv (state0 statet : list R) (Isp c g : R) (o : string) (p : bool)
    (self : simple_landing) :
  __init__ state0 statet Isp c g o p = Ok self ->
  exists x0 y0 vx0 vy0 m0 r0 xt yt vxt vyt mt rt,
    state0 = x0 :: y0 :: vx0 :: vy0 :: m0 :: r0 /\
    statet = xt :: yt :: vxt :: vyt :: mt :: rt /\
    __init__ (x0 :: y0 :: vx0 :: vy0 :: m0 :: r0)
             (xt :: yt :: vxt :: vyt :: mt :: rt) Isp c g o p = Ok self.
Proof.
  intros H.
  destruct (le_lt_dec 5 (List.length state0)) as [L0 | S0].
  - destruct (le_lt_dec 5 (List.length statet)) as [Lt | St].
    + apply five_components in L0, Lt.
      destruct L0 as [x0 [y0 [vx0 [vy0 [m0 [r0 E0]]]]]].
      destruct Lt as [xt [yt [vxt [vyt [mt [rt Et]]]]]].
      exists x0, y0, vx0, vy0, m0, r0, xt, yt, vxt, vyt, mt, rt.
      subst state0 statet. repeat split. exact H.
    + rewrite init_short_target in H by assumption. discriminate H.
  - rewrite init_short_state in H by assumption. discriminate H.
Qed.

(** The constructor returns an object exactly when the initial and the
    target state both have at least five components; otherwise it raises
    the [IndexError] of the scaling.  The numbers play no part. *)
Theorem init_defined_from_five (state0 statet : list R) (Isp c g : R)
    (o : string) (p : bool) :
  ((5 <= List.length state0)%nat /\ (5 <= List.length statet)%nat ->
   exists self, __init__ state0 statet Isp c g o p = Ok self) /\
  ((List.length state0 < 5)%nat \/ (List.length statet < 5)%nat ->
   __init__ state0 statet Isp c g o p = Raise IndexError).
Proof.
  split.
  - intros [H0 Ht]. apply five_components in H0, Ht.
    destruct H0 as [x0 [y0 [vx0 [vy0 [m0 [r0 ->]]]]]].
    destruct Ht as [xt [yt [vxt [vyt [mt [rt ->]]]]]].
    eexists. apply init_value.
  - intros [H0 | Ht].
    + apply init_short_state. exact H0.
    + destruct (le_lt_dec 5 (List.length state0)) as [L0 | S0].
      * apply init_short_target; assumption.
      * apply init_short_state. exact S0.
Qed.

(** The scaled parameters of a constructed problem give back the dimensional
    arguments when multiplied by the units, as [human_readable_extra] prints
    them: [Isp * T], [c * F] and [g * A]. *)
Theorem init_parameters_redimensionalise
    (state0 statet : list R) (Isp c g : R) (o : string) (p : bool)
    (self : simple_landing) :
  __init__ state0 statet Isp c g o p = Ok self ->
  self_Isp self * self_T self = Isp /\
  self_c self * self_F self = c /\
  self_g self * self_A self = g.
Proof.
  intros H. apply init_inv in H.
  destruct H as [x0 [y0 [vx0 [vy0 [m0 [r0 [xt [yt [vxt [vyt [mt [rt
    [_ [_ H]]]]]]]]]]]]]].
  rewrite init_value in H. injection H as <-. cbn.
  repeat split; field.
Qed.

Lemma init_parameters_redimensionalise_witness :
  __init__ default_state0 default_statet 311 44000 (16229 / 10000) "QC" false =
    Ok default_problem /\
  self_Isp default_problem * self_T default_problem = 311 /\
  self_c default_problem * self_F default_problem = 44000 /\
  self_g default_problem * self_A default_problem = 16229 / 10000.
Proof.
  split.
  - exact init_default.
  - exact (init_parameters_redimensionalise
             default_state0 default_statet 311 44000 (16229 / 10000)
             "QC" false default_problem init_default).
Defined.

(** The scaled states that a constructed problem stores give back the raw
    states it stores when put through [_dim_back], and the raw states are
    the arguments, untouched by the scaling. *)
Theorem init_states_round_trip
    (state0 statet : list R) (Isp c g : R) (o : string) (p : bool)
    (self : simple_landing) :
  __init__ state0 statet Isp c g o p = Ok self ->
  self_state0_input self = state0 /\
  self_statet_input self = statet /\
  _dim_back self (self_state0 self) = Ok state0 /\
  _dim_back self (self_statet self) = Ok statet.
Proof.
  intros H. apply init_inv in H.
  destruct H as [x0 [y0 [vx0 [vy0 [m0 [r0 [xt [yt [vxt [vyt [mt [rt
    [-> [-> H]]]]]]]]]]]]]].
  rewrite init_value in H. injection H as <-. cbn [self_state0_input
    self_statet_input self_state0 self_statet].
  split; [reflexivity |]. split; [reflexivity |].
  rewrite !dim_back_five. cbn [self_R self_V self_M].
  assert (E : forall a d : R, d <> 0 -> a / d * d = a)
    by (intros a d Hd; field; exact Hd).
  rewrite !E by lra. split; reflexivity.
Qed.

Lemma init_states_round_trip_witness :
  __init__ default_state0 default_statet 311 44000 (16229 / 10000) "QC" false =
    Ok default_problem /\
  _dim_back default_problem (self_state0 default_problem) = Ok default_state0.
Proof.
  split.
  - exact init_default.
  - exact (proj1 (proj2 (proj2 (init_states_round_trip
             default_state0 default_statet 311 44000 (16229 / 10000)
             "QC" false default_problem init_default)))).
Defined.

(** The bounds that a constructed problem stores do not depend on the
    arguments: six lower and six upper bounds, as many as the decision
    vector has components, each lower bound strictly below its upper
    bound. *)
Theorem init_bounds_consistent
    (state0 statet : list R) (Isp c g : R) (o : string) (p : bool)
    (self : simple_landing) :
  __init__ state0 statet Isp c g o p = Ok self ->
  List.length (self_lb self) = 6%nat /\
  List.length (self_ub self) = 6%nat /\
  Forall2 Rlt (self_lb self) (self_ub self).
Proof.
  intros H. apply init_inv in H.
  destruct H as [x0 [y0 [vx0 [vy0 [m0 [r0 [xt [yt [vxt [vyt [mt [rt
    [_ [_ H]]]]]]]]]]]]]].
  rewrite init_value in H. injection H as <-. cbn.
  split; [reflexivity |]. split; [reflexivity |].
  repeat constructor; lra.
Qed.

Lemma init_bounds_consistent_witness :
  __init__ default_state0 default_statet 311 44000 (16229 / 10000) "QC" false =
    Ok default_problem /\
  Forall2 Rlt (self_lb default_problem) (self_ub default_problem).
Proof.
  split.
  - exact init_default.
  - exact (proj2 (proj2 (init_bounds_consistent
             default_state0 default_statet 311 44000 (16229 / 10000)
             "QC" false default_problem init_default))).
Defined.

(** ** The state dynamics *)

Section Dynamics.

Variable self : simple_landing.
Variables x y vx vy m u stheta ctheta : R.

Lemma eom_state_value :
  m <> 0 -> self_Isp self <> 0 -> self_G0 self <> 0 ->
  _eom_state self [x; y; vx; vy; m] [u; stheta; ctheta] =
    Ok [vx; vy;
        self_c self * u / m * stheta;
        self_c self * u / m * ctheta - self_g self;
        - self_c self * u / self_Isp self / self_G0 self].
Proof.
  intros Hm HI HG. unfold _eom_state. cbn.
  repeat (rewrite truediv_ok
            by (assumption || (apply Rdiv_nonzero; assumption)); cbn).
  reflexivity.
Qed.

End Dynamics.

(** The state derivatives are [dx = vx], [dy = vy],
    [dvx = c*u*sin/m], [dvy = c*u*cos/m - g] and [dm = -c*u/(Isp*g0)],
    whenever the mass, the specific impulse and the standard gravity can be
    divided by. *)
Theorem state_derivatives (self : simple_landing)
    (x y vx vy m u stheta ctheta : R) :
  m <> 0 -> self_Isp self <> 0 -> self_G0 self <> 0 ->
  _eom_state self [x; y; vx; vy; m] [u; stheta; ctheta] =
    Ok [vx; vy;
        self_c self * u * stheta / m;
        self_c self * u * ctheta / m - self_g self;
        - (self_c self * u) / (self_Isp self * self_G0 self)].
Proof.
  intros Hm HI HG. rewrite eom_state_value by assumption.
  replace (self_c self * u / m * stheta)
    with (self_c self * u * stheta / m) by (field; exact Hm).
  replace (self_c self * u / m * ctheta)
    with (self_c self * u * ctheta / m) by (field; exact Hm).
  replace (- self_c self * u / self_Isp self / self_G0 self)
    with (- (self_c self * u) / (self_Isp self * self_G0 self))
    by (field; split; assumption).
  reflexivity.
Qed.

Lemma state_derivatives_witness :
  (1 <> 0 /\ self_Isp default_problem <> 0 /\ self_G0 default_problem <> 0) /\
  _eom_state default_problem [0; 1; 1 / 5; -1 / 20; 1] [1; 0; -1] =
    Ok [1 / 5; -1 / 20;
        self_c default_problem * 1 * 0 / 1;
        self_c default_problem * 1 * -1 / 1 - self_g default_problem;
        - (self_c default_problem * 1) /
          (self_Isp default_problem * self_G0 default_problem)].
Proof.
  assert (Hm : 1 <> 0) by lra.
  assert (HI : self_Isp default_problem <> 0) by (cbn; lra).
  assert (HG : self_G0 default_problem <> 0) by (cbn; lra).
  split.
  - repeat split; assumption.
  - exact (state_derivatives default_problem
             0 1 (1 / 5) (-1 / 20) 1 1 0 (-1) Hm HI HG).
Defined.

(** The mass never grows: with a thrust and a throttle that are not
    negative and a positive specific impulse and standard gravity, the mass
    derivative is at most zero, and it is zero exactly when [c*u = 0]. *)
Theorem mass_flow_nonpositive (self : simple_landing)
    (x y vx vy m u stheta ctheta : R) :
  m <> 0 -> 0 < self_Isp self -> 0 < self_G0 self ->
  0 <= self_c self -> 0 <= u ->
  exists dx dy dvx dvy dm,
    _eom_state self [x; y; vx; vy; m] [u; stheta; ctheta] =
      Ok [dx; dy; dvx; dvy; dm] /\
    dm <= 0 /\
    (dm = 0 <-> self_c self * u = 0).
Proof.
  intros Hm HI HG Hc Hu.
  rewrite eom_state_value by (assumption || lra).
  eexists _, _, _, _, _. split; [reflexivity |].
  assert (P : 0 < self_Isp self * self_G0 self)
    by (apply Rmult_lt_0_compat; assumption).
  assert (Q : 0 <= self_c self * u) by (apply Rmult_le_pos; assumption).
  assert (E : - self_c self * u / self_Isp self / self_G0 self =
              - (self_c self * u * / (self_Isp self * self_G0 self)))
    by (field; split; lra).
  rewrite E.
  assert (I : 0 < / (self_Isp self * self_G0 self))
    by (apply Rinv_0_lt_compat; exact P).
  split; [| split].
  - assert (0 <= self_c self * u * / (self_Isp self * self_G0 self))
      by (apply Rmult_le_pos; lra).
    lra.
  - intros Hz.
    assert (Z : self_c self * u * / (self_Isp self * self_G0 self) = 0) by lra.
    apply Rmult_integral in Z. destruct Z as [Z | Z]; [exact Z | lra].
  - intros Hz. rewrite Hz. lra.
Qed.

Lemma mass_flow_nonpositive_witness :
  (1 <> 0 /\ 0 < self_Isp default_problem /\ 0 < self_G0 default_problem /\
   0 <= self_c default_problem /\ 0 <= 1) /\
  exists dx dy dvx dvy dm,
    _eom_state default_problem [0; 1; 1 / 5; -1 / 20; 1] [1; 0; -1] =
      Ok [dx; dy; dvx; dvy; dm] /\
    dm <= 0 /\
    (dm = 0 <-> self_c default_problem * 1 = 0).
Proof.
  assert (Hm : 1 <> 0) by lra.
  assert (HI : 0 < self_Isp default_problem) by (cbn; lra).
  assert (HG : 0 < self_G0 default_problem) by (cbn; lra).
  assert (Hc : 0 <= self_c default_problem) by (cbn; lra).
  assert (Hu : 0 <= 1) by lra.
  split.
  - repeat split; assumption.
  - exact (mass_flow_nonpositive default_problem
             0 1 (1 / 5) (-1 / 20) 1 1 0 (-1) Hm HI HG Hc Hu).
Defined.

(** Without thrust the lander falls freely: at throttle 0 the velocity
    derivative is [(0, -g)] and the mass derivative is 0, whatever the
    thrust direction. *)
Theorem free_fall_without_thrust (self : simple_landing)
    (x y vx vy m stheta ctheta : R) :
  m <> 0 -> self_Isp self <> 0 -> self_G0 self <> 0 ->
  _eom_state self [x; y; vx; vy; m] [0; stheta; ctheta] =
    Ok [vx; vy; 0; - self_g self; 0].
Proof.
  intros Hm HI HG. rewrite eom_state_value by assumption.
  replace (self_c self * 0 / m * stheta) with 0 by (field; exact Hm).
  replace (self_c self * 0 / m * ctheta - self_g self)
    with (- self_g self) by (field; exact Hm).
  replace (- self_c self * 0 / self_Isp self / self_G0 self)
    with 0 by (field; split; assumption).
  reflexivity.
Qed.

Lemma free_fall_without_thrust_witness :
  (1 <> 0 /\ self_Isp default_problem <> 0 /\ self_G0 default_problem <> 0) /\
  _eom_state default_problem [0; 1; 1 / 5; -1 / 20; 1] [0; 0; -1] =
    Ok [1 / 5; -1 / 20; 0; - self_g default_problem; 0].
Proof.
  assert (Hm : 1 <> 0) by lra.
  assert (HI : self_Isp default_problem <> 0) by (cbn; lra).
  assert (HG : self_G0 default_problem <> 0) by (cbn; lra).
  split.
  - repeat split; assumption.
  - exact (free_fall_without_thrust default_problem
             0 1 (1 / 5) (-1 / 20) 1 0 (-1) Hm HI HG).
Defined.

(** The running cost is [c^2*u^2/(Isp*g0)] under "QC" and [c*u/(Isp*g0)]
    under "MOC"; with a positive specific impulse and standard gravity the
    quadratic cost is never negative, and neither is the mass-optimal cost
    of a thrust and a throttle that are not negative. *)
Theorem running_cost_value (self : simple_landing) (state : list R)
    (u stheta ctheta : R) :
  0 < self_Isp self -> 0 < self_G0 self ->
  (self_objfun_type self = "QC"%string ->
   _cost self state [u; stheta; ctheta] =
     Ok (self_c self ^ 2 * u ^ 2 / (self_Isp self * self_G0 self)) /\
   0 <= self_c self ^ 2 * u ^ 2 / (self_Isp self * self_G0 self)) /\
  (self_objfun_type self = "MOC"%string ->
   _cost self state [u; stheta; ctheta] =
     Ok (self_c self * u / (self_Isp self * self_G0 self)) /\
   (0 <= self_c self -> 0 <= u ->
    0 <= self_c self * u / (self_Isp self * self_G0 self))).
Proof.
  intros HI HG.
  assert (P : 0 < self_Isp self * self_G0 self)
    by (apply Rmult_lt_0_compat; assumption).
  assert (I : 0 < / (self_Isp self * self_G0 self))
    by (apply Rinv_0_lt_compat; exact P).
  split; intros Ho; (split; [unfold _cost; rewrite Ho; cbn;
      repeat (rewrite truediv_ok by lra; cbn); f_equal; field; split; lra |]).
  - unfold Rdiv. apply Rmult_le_pos; [| lra].
    apply Rmult_le_pos; apply pow2_ge_0.
  - intros Hc Hu. unfold Rdiv. apply Rmult_le_pos; [| lra].
    apply Rmult_le_pos; assumption.
Qed.

Lemma running_cost_value_witness :
  (0 < self_Isp default_problem /\ 0 < self_G0 default_problem) /\
  _cost default_problem [0; 1; 1 / 5; -1 / 20; 1] [1; 0; -1] =
    Ok (self_c default_problem ^ 2 * 1 ^ 2 /
        (self_Isp default_problem * self_G0 default_problem)).
Proof.
  assert (HI : 0 < self_Isp default_problem) by (cbn; lra).
  assert (HG : 0 < self_G0 default_problem) by (cbn; lra).
  split.
  - split; assumption.
  - exact (proj1 (proj1 (running_cost_value default_problem
             [0; 1; 1 / 5; -1 / 20; 1] 1 0 (-1) HI HG) eq_refl)).
Defined.

(** ** More on the control law *)

Lemma truediv_Ok_inv (a b q : R) : truediv a b = Ok q -> b <> 0 /\ q = a / b.
Proof.
  unfold truediv. destruct (Req_dec_T b 0) as [E | N]; intros H.
  - discriminate H.
  - injection H as <-. split; [exact N | reflexivity].
Qed.

Lemma unpack10_inv {A : Type} (l : list A)
    (t : A * A * A * A * A * A * A * A * A * A) :
  unpack10 l = Ok t ->
  exists a b c d e f g h i j,
    l = [a; b; c; d; e; f; g; h; i; j] /\ t = (a, b, c, d, e, f, g, h, i, j).
Proof.
  intros H.
  do 10 (destruct l as [| ? l]; [cbn in H; discriminate H |]).
  destruct l; [| cbn in H; discriminate H].
  cbn in H. injection H as <-.
  eexists _, _, _, _, _, _, _, _, _, _. split; reflexivity.
Qed.

Lemma unpack10_wrong {A : Type} (l : list A) :
  List.length l <> 10%nat -> unpack10 l = Raise ValueError.
Proof.
  intros H.
  do 10 (destruct l as [| ? l]; [reflexivity |]).
  destruct l; [exfalso; apply H; reflexivity | reflexivity].
Qed.

(** What the control law returns, read backwards. *)
Lemma control_law_inv (self : simple_landing) (full_state controls : list R) :
  _pontryagin_minimum_principle self full_state = Ok controls ->
  exists x y vx vy m lx ly lvx lvy lm u,
    full_state = [x; y; vx; vy; m; lx; ly; lvx; lvy; lm] /\
    0 < sqrt (lvx ^ 2 + lvy ^ 2) /\
    controls = [u; - lvx / sqrt (lvx ^ 2 + lvy ^ 2);
                - lvy / sqrt (lvx ^ 2 + lvy ^ 2)] /\
    0 <= u <= 1 /\
    (self_objfun_type self = "QC"%string \/
     self_objfun_type self = "MOC"%string).
Proof.
  unfold _pontryagin_minimum_principle. intros H.
  apply bind_Ok_inv in H. destruct H as [t [Ht H]].
  apply unpack10_inv in Ht.
  destruct Ht as [x [y [vx [vy [m [lx [ly [lvx [lvy [lm [-> ->]]]]]]]]]]].
  rewrite math_sqrt_ok in H by apply sum_sq_nonneg. cbn [bind] in H.
  apply bind_Ok_inv in H. destruct H as [st [Hst H]].
  apply truediv_Ok_inv in Hst. destruct Hst as [Hn ->].
  apply bind_Ok_inv in H. destruct H as [ct [Hct H]].
  apply truediv_Ok_inv in Hct. destruct Hct as [_ ->].
  apply bind_Ok_inv in H. destruct H as [ou [Hou H]].
  apply bind_Ok_inv in H. destruct H as [u [Hu H]].
  injection H as <-.
  exists x, y, vx, vy, m, lx, ly, lvx, lvy, lm, u.
  split; [reflexivity |].
  split; [pose proof (sqrt_pos (lvx ^ 2 + lvy ^ 2)); lra |].
  split; [reflexivity |].
  destruct (self_objfun_type self =? "QC")%string eqn:EQ.
  - apply String.eqb_eq in EQ.
    apply bind_Ok_inv in Hou. destruct Hou as [q [_ Hou]].
    apply bind_Ok_inv in Hou. destruct Hou as [r [_ Hou]].
    injection Hou as <-. cbn in Hu. injection Hu as <-.
    split; [| left; exact EQ].
    rewrite max_Rmax, min_Rmin. apply clamp_bounds.
  - destruct (self_objfun_type self =? "MOC")%string eqn:EM.
    + apply String.eqb_eq in EM.
      apply bind_Ok_inv in Hou. destruct Hou as [q [_ Hou]].
      injection Hou as <-.
      split; [| right; exact EM].
      destruct (Rlt_dec _ 0) as [L | L].
      * cbn in Hu. injection Hu as <-. lra.
      * destruct (Rge_dec _ 0) as [G | G]; cbn in Hu.
        -- injection Hu as <-. lra.
        -- discriminate Hu.
    + injection Hou as <-. cbn in Hu. discriminate Hu.
Qed.

Lemma direction_lower_bound (lvx lvy s c : R) :
  s ^ 2 + c ^ 2 = 1 -> - sqrt (lvx ^ 2 + lvy ^ 2) <= lvx * s + lvy * c.
Proof.
  intros Hu.
  pose proof (sqrt_pos (lvx ^ 2 + lvy ^ 2)) as Hp.
  pose proof (sqrt_sqrt (lvx ^ 2 + lvy ^ 2) (sum_sq_nonneg lvx lvy)) as Hs.
  set (n := sqrt (lvx ^ 2 + lvy ^ 2)) in *.
  destruct (Rle_dec (- n) (lvx * s + lvy * c)) as [L | L]; [exact L |].
  exfalso. apply Rnot_le_lt in L.
  pose proof (pow2_ge_0 (lvx * c - lvy * s)) as Hq.
  assert (I : (lvx * s + lvy * c) ^ 2 + (lvx * c - lvy * s) ^ 2 = n * n).
  { rewrite Hs.
    replace ((lvx * s + lvy * c) ^ 2 + (lvx * c - lvy * s) ^ 2)
      with ((lvx ^ 2 + lvy ^ 2) * (s ^ 2 + c ^ 2)) by ring.
    rewrite Hu. ring. }
  assert (J : n * n < (lvx * s + lvy * c) ^ 2) by nra.
  lra.
Qed.

Lemma direction_attained (lvx lvy : R) :
  0 < sqrt (lvx ^ 2 + lvy ^ 2) ->
  lvx * (- lvx / sqrt (lvx ^ 2 + lvy ^ 2)) +
  lvy * (- lvy / sqrt (lvx ^ 2 + lvy ^ 2)) = - sqrt (lvx ^ 2 + lvy ^ 2).
Proof.
  intros Hn.
  pose proof (sqrt_sqrt (lvx ^ 2 + lvy ^ 2) (sum_sq_nonneg lvx lvy)) as Hs.
  set (n := sqrt (lvx ^ 2 + lvy ^ 2)) in *.
  replace (lvx * (- lvx / n) + lvy * (- lvy / n))
    with (- (lvx ^ 2 + lvy ^ 2) / n) by (field; lra).
  rewrite <- Hs. field. lra.
Qed.

(** The thrust direction that the control law returns on a state with
    [lv_norm > 0] is the unit vector that makes the velocity costate's
    projection [lvx*sin + lvy*cos] least: the projection is [-lv_norm]
    there, and no unit vector goes below. *)
Theorem thrust_direction_minimises (self : simple_landing)
    (x y vx vy m lx ly lvx lvy lm s c : R) :
  0 < sqrt (lvx ^ 2 + lvy ^ 2) ->
  0 < m ->
  (self_objfun_type self = "QC"%string /\ self_c self <> 0) \/
  self_objfun_type self = "MOC"%string ->
  s ^ 2 + c ^ 2 = 1 ->
  exists u stheta ctheta,
    _pontryagin_minimum_principle self [x; y; vx; vy; m; lx; ly; lvx; lvy; lm] =
      Ok [u; stheta; ctheta] /\
    lvx * stheta + lvy * ctheta = - sqrt (lvx ^ 2 + lvy ^ 2) /\
    lvx * stheta + lvy * ctheta <= lvx * s + lvy * c.
Proof.
  intros Hn Hm Ho Hu.
  destruct (control_law_regular self x y vx vy m lx ly lvx lvy lm Hn Hm Ho)
    as [u [_ E]].
  eexists _, _, _. split; [exact E |].
  rewrite direction_attained by exact Hn.
  split; [reflexivity | apply direction_lower_bound; exact Hu].
Qed.

Lemma thrust_direction_minimises_witness :
  (0 < sqrt (3 ^ 2 + 4 ^ 2) /\ 0 < 1 /\
   ((self_objfun_type moc_problem = "QC"%string /\ self_c moc_problem <> 0) \/
    self_objfun_type moc_problem = "MOC"%string) /\
   1 ^ 2 + 0 ^ 2 = 1) /\
  exists u stheta ctheta,
    _pontryagin_minimum_principle moc_problem
      [0; 1; 1 / 5; -1 / 20; 1; 0; 0; 3; 4; 0] = Ok [u; stheta; ctheta] /\
    3 * stheta + 4 * ctheta = - sqrt (3 ^ 2 + 4 ^ 2) /\
    3 * stheta + 4 * ctheta <= 3 * 1 + 4 * 0.
Proof.
  assert (Hn : 0 < sqrt (3 ^ 2 + 4 ^ 2)) by (apply sqrt_lt_R0; lra).
  assert (Hm : 0 < 1) by lra.
  assert (Ho : (self_objfun_type moc_problem = "QC"%string /\
                self_c moc_problem <> 0) \/
               self_objfun_type moc_problem = "MOC"%string)
    by (right; reflexivity).
  assert (Hu : 1 ^ 2 + 0 ^ 2 = 1) by lra.
  split.
  - repeat split; assumption.
  - exact (thrust_direction_minimises moc_problem
             0 1 (1 / 5) (-1 / 20) 1 0 0 3 4 0 1 0 Hn Hm Ho Hu).
Defined.

(** ** The Hamiltonian *)

Lemma hamiltonian_unfold (self : simple_landing) (full_state : list R) :
  _hamiltonian self full_state =
  (controls <- _pontryagin_minimum_principle self full_state ;;
   hamiltonian_at self full_state controls).
Proof. reflexivity. Qed.

Lemma hamiltonian_at_value (self : simple_landing)
    (x y vx vy m lx ly lvx lvy lm u stheta ctheta : R) :
  self_objfun_type self = "QC"%string \/ self_objfun_type self = "MOC"%string ->
  m <> 0 ->
  self_Isp self <> 0 ->
  self_G0 self <> 0 ->
  hamiltonian_at self [x; y; vx; vy; m; lx; ly; lvx; lvy; lm]
    [u; stheta; ctheta] =
    Ok (hamiltonian_closed self vx vy m lx ly lvx lvy lm u stheta ctheta).
Proof.
  intros Ho Hm HI HG. unfold hamiltonian_at.
  unfold _eom_state, _cost, hamiltonian_closed, running_cost.
  destruct Ho as [Ho | Ho]; rewrite Ho; cbn;
    repeat (rewrite truediv_ok
              by (assumption || (apply Rdiv_nonzero; assumption)); cbn);
    f_equal; field; repeat split; assumption.
Qed.

Lemma hamiltonian_MOC_closed (self : simple_landing)
    (x y vx vy m lx ly lvx lvy lm : R) :
  self_objfun_type self = "MOC"%string ->
  0 < sqrt (lvx ^ 2 + lvy ^ 2) ->
  0 < m ->
  self_Isp self <> 0 ->
  self_G0 self <> 0 ->
  _hamiltonian self [x; y; vx; vy; m; lx; ly; lvx; lvy; lm] =
    Ok (lx * vx + ly * vy - lvy * self_g self
        + self_c self / (self_Isp self * self_G0 self)
          * Rmin (switching self m lvx lvy lm) 0).
Proof.
  intros Ho Hn Hm HI HG.
  pose proof (direction_attained lvx lvy Hn) as Ha.
  set (n := sqrt (lvx ^ 2 + lvy ^ 2)) in *.
  rewrite hamiltonian_unfold.
  destruct (Rlt_dec (switching self m lvx lvy lm) 0) as [L | L].
  - rewrite (control_law_MOC self x y vx vy m lx ly lvx lvy lm 1)
      by (assumption || (destruct (Rlt_dec _ 0); [reflexivity | contradiction])).
    cbn [bind]. rewrite hamiltonian_at_value by (auto || lra).
    f_equal. rewrite Rmin_left by lra.
    unfold hamiltonian_closed, running_cost, switching. rewrite Ho. cbn.
    fold n.
    replace (lx * vx + ly * vy + lvx * (self_c self * 1 * (- lvx / n) / m) +
             lvy * (self_c self * 1 * (- lvy / n) / m - self_g self) +
             lm * (- (self_c self * 1) / (self_Isp self * self_G0 self)) +
             self_c self * 1 / (self_Isp self * self_G0 self))
      with (lx * vx + ly * vy - lvy * self_g self
            + self_c self / m * (lvx * (- lvx / n) + lvy * (- lvy / n))
            + self_c self * (1 - lm) / (self_Isp self * self_G0 self))
      by (field; repeat split; lra).
    rewrite Ha. field. repeat split; lra.
  - rewrite (control_law_MOC self x y vx vy m lx ly lvx lvy lm 0)
      by (assumption || (destruct (Rlt_dec _ 0); [contradiction | reflexivity])).
    cbn [bind]. rewrite hamiltonian_at_value by (auto || lra).
    f_equal. rewrite Rmin_right by lra.
    unfold hamiltonian_closed, running_cost. rewrite Ho. cbn.
    fold n. field. repeat split; (assumption || lra).
Qed.

(** The Hamiltonian under "MOC" in closed form: the free-fall part
    [lx*vx + ly*vy - lvy*g] plus [c/(Isp*g0)] times the negative part of
    the switching function.  The control jumps at [S = 0]; the Hamiltonian
    does not. *)
Theorem hamiltonian_mass_optimal (self : simple_landing)
    (x y vx vy m lx ly lvx lvy lm : R) :
  self_objfun_type self = "MOC"%string ->
  0 < sqrt (lvx ^ 2 + lvy ^ 2) ->
  0 < m ->
  self_Isp self <> 0 ->
  self_G0 self <> 0 ->
  _hamiltonian self [x; y; vx; vy; m; lx; ly; lvx; lvy; lm] =
    Ok (lx * vx + ly * vy - lvy * self_g self
        + self_c self / (self_Isp self * self_G0 self)
          * Rmin (switching self m lvx lvy lm) 0).
Proof.
  intros Ho Hn Hm HI HG.
  apply hamiltonian_MOC_closed; assumption.
Qed.

Lemma hamiltonian_mass_optimal_witness :
  (self_objfun_type moc_problem = "MOC"%string /\
   0 < sqrt (0 ^ 2 + 1 ^ 2) /\ 0 < 1 /\
   self_Isp moc_problem <> 0 /\ self_G0 moc_problem <> 0) /\
  _hamiltonian moc_problem [0; 1; 1 / 5; -1 / 20; 1; 0; 0; 0; 1; 0] =
    Ok (0 * (1 / 5) + 0 * (-1 / 20) - 1 * self_g moc_problem
        + self_c moc_problem / (self_Isp moc_problem * self_G0 moc_problem)
          * Rmin (switching moc_problem 1 0 1 0) 0).
Proof.
  assert (Ho : self_objfun_type moc_problem = "MOC"%string) by reflexivity.
  assert (Hn : 0 < sqrt (0 ^ 2 + 1 ^ 2)) by (rewrite sqrt_0_1; lra).
  assert (Hm : 0 < 1) by lra.
  assert (HI : self_Isp moc_problem <> 0) by (cbn; lra).
  assert (HG : self_G0 moc_problem <> 0) by (cbn; lra).
  split.
  - repeat split; assumption.
  - exact (hamiltonian_mass_optimal moc_problem
             0 1 (1 / 5) (-1 / 20) 1 0 0 0 1 0 Ho Hn Hm HI HG).
Defined.

(** Under "MOC" the control law does what its name says: the Hamiltonian at
    the triple it returns is at most the Hamiltonian at any other admissible
    triple (a throttle in [[0, 1]] and a unit direction), for a problem with
    a thrust that is not negative and a positive specific impulse and
    standard gravity. *)
Theorem mass_optimal_control_minimises (self : simple_landing)
    (x y vx vy m lx ly lvx lvy lm u s c : R) :
  self_objfun_type self = "MOC"%string ->
  0 < sqrt (lvx ^ 2 + lvy ^ 2) ->
  0 < m ->
  0 < self_Isp self ->
  0 < self_G0 self ->
  0 <= self_c self ->
  0 <= u <= 1 ->
  s ^ 2 + c ^ 2 = 1 ->
  exists h h',
    _hamiltonian self [x; y; vx; vy; m; lx; ly; lvx; lvy; lm] = Ok h /\
    hamiltonian_at self [x; y; vx; vy; m; lx; ly; lvx; lvy; lm] [u; s; c] =
      Ok h' /\
    h <= h'.
Proof.
  intros Ho Hn Hm HI HG Hc Hu Hsc.
  rewrite hamiltonian_MOC_closed by (assumption || lra).
  rewrite hamiltonian_at_value by (auto || lra).
  eexists _, _. split; [reflexivity |]. split; [reflexivity |].
  pose proof (direction_lower_bound lvx lvy s c Hsc) as Hd.
  unfold hamiltonian_closed, running_cost, switching in *. rewrite Ho. cbn.
  set (n := sqrt (lvx ^ 2 + lvy ^ 2)) in *.
  set (D := lvx * s + lvy * c) in *.
  assert (P : 0 < self_Isp self * self_G0 self)
    by (apply Rmult_lt_0_compat; assumption).
  set (K := / (self_Isp self * self_G0 self)).
  assert (HK : 0 < K) by (apply Rinv_0_lt_compat; exact P).
  set (M := / m).
  assert (HM : 0 < M) by (apply Rinv_0_lt_compat; exact Hm).
  set (S := 1 - lm - n / m * self_Isp self * self_G0 self).
  assert (ES : K * S = K * (1 - lm) - M * n)
    by (unfold K, S, M; field; repeat split; lra).
  replace (lx * vx + ly * vy + lvx * (self_c self * u * s / m) +
           lvy * (self_c self * u * c / m - self_g self) +
           lm * (- (self_c self * u) / (self_Isp self * self_G0 self)) +
           self_c self * u / (self_Isp self * self_G0 self))
    with (lx * vx + ly * vy - lvy * self_g self
          + self_c self * u * (M * D + K * (1 - lm)))
    by (unfold D, M, K; field; repeat split; lra).
  replace (self_c self / (self_Isp self * self_G0 self) * Rmin S 0)
    with (self_c self * (K * Rmin S 0))
    by (unfold K; field; repeat split; lra).
  assert (T1 : M * (- n) <= M * D) by (apply Rmult_le_compat_l; lra).
  assert (T2 : K * S <= M * D + K * (1 - lm)) by lra.
  assert (T3 : K * Rmin S 0 <= u * (M * D + K * (1 - lm))).
  { destruct (Rle_dec S 0) as [L | L].
    - rewrite Rmin_left by exact L.
      assert (K * S <= 0) by nra.
      assert (u * (K * S) <= u * (M * D + K * (1 - lm)))
        by (apply Rmult_le_compat_l; lra).
      nra.
    - rewrite Rmin_right by lra.
      assert (0 <= K * S) by nra.
      assert (0 <= u * (M * D + K * (1 - lm)))
        by (apply Rmult_le_pos; lra).
      lra. }
  assert (T4 : self_c self * (K * Rmin S 0) <=
               self_c self * (u * (M * D + K * (1 - lm))))
    by (apply Rmult_le_compat_l; assumption).
  lra.
Qed.

Lemma mass_optimal_control_minimises_witness :
  (self_objfun_type moc_problem = "MOC"%string /\
   0 < sqrt (0 ^ 2 + 1 ^ 2) /\ 0 < 1 /\
   0 < self_Isp moc_problem /\ 0 < self_G0 moc_problem /\
   0 <= self_c moc_problem /\ 0 <= 1 / 2 <= 1 /\ 1 ^ 2 + 0 ^ 2 = 1) /\
  exists h h',
    _hamiltonian moc_problem [0; 1; 1 / 5; -1 / 20; 1; 0; 0; 0; 1; 0] = Ok h /\
    hamiltonian_at moc_problem [0; 1; 1 / 5; -1 / 20; 1; 0; 0; 0; 1; 0]
      [1 / 2; 1; 0] = Ok h' /\
    h <= h'.
Proof.
  assert (Ho : self_objfun_type moc_problem = "MOC"%string) by reflexivity.
  assert (Hn : 0 < sqrt (0 ^ 2 + 1 ^ 2)) by (rewrite sqrt_0_1; lra).
  assert (Hm : 0 < 1) by lra.
  assert (HI : 0 < self_Isp moc_problem) by (cbn; lra).
  assert (HG : 0 < self_G0 moc_problem) by (cbn; lra).
  assert (Hc : 0 <= self_c moc_problem) by (cbn; lra).
  assert (Hu : 0 <= 1 / 2 <= 1) by lra.
  assert (Hsc : 1 ^ 2 + 0 ^ 2 = 1) by lra.
  split.
  - repeat split; (assumption || lra).
  - exact (mass_optimal_control_minimises moc_problem
             0 1 (1 / 5) (-1 / 20) 1 0 0 0 1 0 (1 / 2) 1 0
             Ho Hn Hm HI HG Hc Hu Hsc).
Defined.

(** ** Failures of the right-hand side *)

Lemma control_law_raises_through (self : simple_landing) (full_state : list R)
    (t : R) (e : exn) :
  _pontryagin_minimum_principle self full_state = Raise e ->
  _eom self full_state t = Raise e /\ _hamiltonian self full_state = Raise e.
Proof.
  intros H. unfold _eom, _hamiltonian. rewrite H. split; reflexivity.
Qed.

(** A state that does not have exactly ten components is refused with the
    [ValueError] of the unpacking, by the control law, the costate
    equations, the right-hand side and the Hamiltonian alike, before any
    arithmetic. *)
Theorem wrong_length_state_refused (self : simple_landing)
    (full_state controls : list R) (t : R) :
  List.length full_state <> 10%nat ->
  _pontryagin_minimum_principle self full_state = Raise ValueError /\
  _eom_costate self full_state controls = Raise ValueError /\
  _eom self full_state t = Raise ValueError /\
  _hamiltonian self full_state = Raise ValueError.
Proof.
  intros Hlen.
  assert (E : _pontryagin_minimum_principle self full_state = Raise ValueError)
    by (unfold _pontryagin_minimum_principle;
        rewrite unpack10_wrong by exact Hlen; reflexivity).
  split; [exact E |]. split.
  - unfold _eom_costate. rewrite unpack10_wrong by exact Hlen. reflexivity.
  - apply control_law_raises_through. exact E.
Qed.

Lemma wrong_length_state_refused_witness :
  List.length [0; 1; 1 / 5; -1 / 20; 1] <> 10%nat /\
  _hamiltonian default_problem [0; 1; 1 / 5; -1 / 20; 1] = Raise ValueError.
Proof.
  assert (Hlen : List.length [0; 1; 1 / 5; -1 / 20; 1] <> 10%nat)
    by (cbn; lia).
  split.
  - exact Hlen.
  - exact (proj2 (proj2 (proj2 (wrong_length_state_refused default_problem
             [0; 1; 1 / 5; -1 / 20; 1] [] 0 Hlen)))).
Defined.

(** ** The right-hand side of the augmented system *)

(** Whenever the right-hand side returns, the state it was given has ten
    components and so has the derivative: the state equations first, then
    the costate equations. *)
Theorem eom_ten_components (self : simple_landing) (full_state : list R)
    (t : R) (d : list R) :
  _eom self full_state t = Ok d ->
  List.length full_state = 10%nat /\ List.length d = 10%nat.
Proof.
  intros H. unfold _eom in H.
  apply bind_Ok_inv in H. destruct H as [controls [Hp H]].
  apply bind_Ok_inv in H. destruct H as [dstate [Hs H]].
  apply bind_Ok_inv in H. destruct H as [dcostate [Hc H]].
  injection H as <-.
  apply control_law_inv in Hp.
  destruct Hp as [x [y [vx [vy [m [lx [ly [lvx [lvy [lm [u [-> _]]]]]]]]]]]].
  apply eom_state_shape in Hs. apply eom_costate_shape in Hc.
  destruct Hc as [a [b [e ->]]].
  split; [reflexivity |].
  rewrite length_app, Hs. reflexivity.
Qed.

Lemma eom_ten_components_witness :
  _eom moc_problem [0; 1; 1 / 5; -1 / 20; 1; 0; 0; 0; 1; 0] 0 =
    Ok [1 / 5; -1 / 20;
        self_c moc_problem * 1 / 1 * (- 0 / sqrt (0 ^ 2 + 1 ^ 2));
        self_c moc_problem * 1 / 1 * (- 1 / sqrt (0 ^ 2 + 1 ^ 2))
          - self_g moc_problem;
        - self_c moc_problem * 1 / self_Isp moc_problem / self_G0 moc_problem;
        0; 0; - 0; - 0;
        self_c moc_problem * 1 / 1 ^ 2 *
          (0 * (- 0 / sqrt (0 ^ 2 + 1 ^ 2)) + 1 * (- 1 / sqrt (0 ^ 2 + 1 ^ 2)))]
  /\
  List.length [0; 1; 1 / 5; -1 / 20; 1; 0; 0; 0; 1; 0] = 10%nat.
Proof.
  assert (E : _eom moc_problem [0; 1; 1 / 5; -1 / 20; 1; 0; 0; 0; 1; 0] 0 =
    Ok [1 / 5; -1 / 20;
        self_c moc_problem * 1 / 1 * (- 0 / sqrt (0 ^ 2 + 1 ^ 2));
        self_c moc_problem * 1 / 1 * (- 1 / sqrt (0 ^ 2 + 1 ^ 2))
          - self_g moc_problem;
        - self_c moc_problem * 1 / self_Isp moc_problem / self_G0 moc_problem;
        0; 0; - 0; - 0;
        self_c moc_problem * 1 / 1 ^ 2 *
          (0 * (- 0 / sqrt (0 ^ 2 + 1 ^ 2)) + 1 * (- 1 / sqrt (0 ^ 2 + 1 ^ 2)))]).
  { apply eom_value.
    - apply control_law_MOC.
      + reflexivity.
      + rewrite sqrt_0_1. lra.
      + lra.
      + destruct (Rlt_dec (switching moc_problem 1 0 1 0) 0) as [L | L].
        * reflexivity.
        * exfalso. apply L. unfold switching. rewrite sqrt_0_1. cbn. lra.
    - lra.
    - cbn. lra.
    - cbn. lra. }
  split.
  - exact E.
  - exact (proj1 (eom_ten_components moc_problem _ 0 _ E)).
Defined.

(** A coast arc.  Under "MOC", where the switching function is not negative,
    the right-hand side is a free fall with every mass-related quantity
    frozen: the velocity changes by gravity only, and the mass and its
    costate do not change. *)
Theorem eom_coast_arc (self : simple_landing)
    (x y vx vy m lx ly lvx lvy lm t : R) :
  self_objfun_type self = "MOC"%string ->
  0 < sqrt (lvx ^ 2 + lvy ^ 2) ->
  0 < m ->
  self_Isp self <> 0 ->
  self_G0 self <> 0 ->
  switching self m lvx lvy lm >= 0 ->
  _eom self [x; y; vx; vy; m; lx; ly; lvx; lvy; lm] t =
    Ok [vx; vy; 0; - self_g self; 0; 0; 0; - lx; - ly; 0].
Proof.
  intros Ho Hn Hm HI HG HS.
  rewrite (eom_value self x y vx vy m lx ly lvx lvy lm t 0
             (- lvx / sqrt (lvx ^ 2 + lvy ^ 2))
             (- lvy / sqrt (lvx ^ 2 + lvy ^ 2))).
  - set (n := sqrt (lvx ^ 2 + lvy ^ 2)) in *.
    replace (self_c self * 0 / m * (- lvx / n)) with 0 by (field; lra).
    replace (self_c self * 0 / m * (- lvy / n) - self_g self)
      with (- self_g self) by (field; lra).
    replace (- self_c self * 0 / self_Isp self / self_G0 self)
      with 0 by (field; split; assumption).
    replace (self_c self * 0 / m ^ 2 *
             (lvx * (- lvx / n) + lvy * (- lvy / n)))
      with 0 by (field; lra).
    reflexivity.
  - apply control_law_MOC; try assumption.
    destruct (Rlt_dec (switching self m lvx lvy lm) 0) as [L | L];
      [lra | reflexivity].
  - lra.
  - exact HI.
  - exact HG.
Qed.

Lemma eom_coast_arc_witness :
  (self_objfun_type moc_problem = "MOC"%string /\
   0 < sqrt (0 ^ 2 + 1 ^ 2) /\ 0 < 100 /\
   self_Isp moc_problem <> 0 /\ self_G0 moc_problem <> 0 /\
   switching moc_problem 100 0 1 0 >= 0) /\
  _eom moc_problem [0; 1; 1 / 5; -1 / 20; 100; 2; 3; 0; 1; 0] 0 =
    Ok [1 / 5; -1 / 20; 0; - self_g moc_problem; 0; 0; 0; - 2; - 3; 0].
Proof.
  assert (Ho : self_objfun_type moc_problem = "MOC"%string) by reflexivity.
  assert (Hn : 0 < sqrt (0 ^ 2 + 1 ^ 2)) by (rewrite sqrt_0_1; lra).
  assert (Hm : 0 < 100) by lra.
  assert (HI : self_Isp moc_problem <> 0) by (cbn; lra).
  assert (HG : self_G0 moc_problem <> 0) by (cbn; lra).
  assert (HS : switching moc_problem 100 0 1 0 >= 0)
    by (unfold switching; rewrite sqrt_0_1; cbn; lra).
  split.
  - repeat split; assumption.
  - exact (eom_coast_arc moc_problem
             0 1 (1 / 5) (-1 / 20) 100 2 3 0 1 0 0 Ho Hn Hm HI HG HS).
Defined.

(** The position and the time never enter the derivatives or the control:
    two states that differ in [x] and [y] only have the same right-hand
    side, at any two times, and the same control triple. *)
Theorem eom_translation_invariant (self : simple_landing)
    (x y x' y' vx vy m lx ly lvx lvy lm t t' : R) :
  _eom self [x; y; vx; vy; m; lx; ly; lvx; lvy; lm] t =
  _eom self [x'; y'; vx; vy; m; lx; ly; lvx; lvy; lm] t' /\
  _pontryagin_minimum_principle self [x; y; vx; vy; m; lx; ly; lvx; lvy; lm] =
  _pontryagin_minimum_principle self [x'; y'; vx; vy; m; lx; ly; lvx; lvy; lm].
Proof.
  assert (E :
    _pontryagin_minimum_principle self [x; y; vx; vy; m; lx; ly; lvx; lvy; lm] =
    _pontryagin_minimum_principle self [x'; y'; vx; vy; m; lx; ly; lvx; lvy; lm])
    by reflexivity.
  split; [| exact E].
  unfold _eom. rewrite <- E.
  destruct (_pontryagin_minimum_principle self
              [x; y; vx; vy; m; lx; ly; lvx; lvy; lm]) as [controls | e];
    reflexivity.
Qed.

(** ** More on the shooting *)

Lemma setitem_length {A : Type} (l : list A) (i : nat) (v : A) (r : list A) :
  setitem l i v = Ok r -> List.length r = List.length l.
Proof.
  revert i r. induction l as [| a l IH]; intros i r H.
  - destruct i; discriminate H.
  - destruct i as [| i].
    + cbn in H. injection H as <-. reflexivity.
    + cbn in H. destruct (setitem l i v) as [r' |] eqn:E; [| discriminate H].
      injection H as <-. cbn. f_equal. apply (IH i). exact E.
Qed.

Section ShootingFacts.

Variable odeint :
  (list R -> R -> result (list R)) -> list R -> list R ->
  result (list (list R) * infodict).
Variable self : simple_landing.

(** An empty decision vector has no time of flight to read: the shooting
    and the evaluation raise [IndexError] before the integrator is
    called, whatever the integrator and the problem. *)
Theorem empty_decision_vector_refused :
  _shoot odeint self [] = Raise IndexError /\
  _compute_constraints_impl odeint self [] = Raise IndexError.
Proof. split; reflexivity. Qed.

(** Whenever the evaluation returns, it returns exactly six residuals, as
    many as the equality constraints that the constructor declares. *)
Theorem constraints_six_components (x ceq : list R) :
  _compute_constraints_impl odeint self x = Ok ceq ->
  List.length ceq = 6%nat.
Proof.
  unfold _compute_constraints_impl. intros H.
  apply bind_Ok_inv in H. destruct H as [[xf info] [_ H]].
  destruct (self_pinpoint self);
    repeat match goal with
      | K : bind _ _ = Ok _ |- _ =>
          apply bind_Ok_inv in K;
          let a := fresh "a" in
          let Ka := fresh "Ka" in
          destruct K as [a [Ka K]]; cbv beta in K
      | K : setitem _ _ _ = Ok _ |- _ => progress cbn [setitem repeat] in K
      | K : Ok _ = Ok ?v |- _ => is_var v; injection K as K; subst v
      end;
    reflexivity.
Qed.

End ShootingFacts.

Lemma constraints_six_components_witness :
  _compute_constraints_impl (odeint_still successful) default_problem x_still =
    Ok [100 * 0; 100 * (1000 / 1000 - 0 / 1000); 100 * (20 / 100 - 0 / 100);
        100 * (-5 / 100 - 0 / 100); 100 * 0; 100 * h_still] /\
  List.length
    [100 * 0; 100 * (1000 / 1000 - 0 / 1000); 100 * (20 / 100 - 0 / 100);
     100 * (-5 / 100 - 0 / 100); 100 * 0; 100 * h_still] = 6%nat.
Proof.
  split.
  - exact (constraints_still successful).
  - exact (constraints_six_components (odeint_still successful)
             default_problem x_still _ (constraints_still successful)).
Defined.

(** ** The mass costate along a trajectory *)

(** Along the control law the mass costate never grows.  On a state with
    [lv_norm > 0] and [m > 0], for a problem whose thrust is not negative
    (specific impulse and standard gravity not zero; "QC" with a thrust that
    can be divided by, or "MOC"), the right-hand side returns, and its
    derivative of [lm] (component 9) is [-c*u*lv_norm/m^2] for a throttle
    [u] in [[0, 1]], which is at most zero. *)
Theorem mass_costate_nonincreasing (self : simple_landing)
    (x y vx vy m lx ly lvx lvy lm t : R) :
  0 < sqrt (lvx ^ 2 + lvy ^ 2) ->
  0 < m ->
  self_Isp self <> 0 ->
  self_G0 self <> 0 ->
  (self_objfun_type self = "QC"%string /\ self_c self <> 0) \/
  self_objfun_type self = "MOC"%string ->
  0 <= self_c self ->
  exists u d dlm,
    0 <= u <= 1 /\
    _eom self [x; y; vx; vy; m; lx; ly; lvx; lvy; lm] t = Ok d /\
    getitem d 9 = Ok dlm /\
    dlm = - (self_c self * u * sqrt (lvx ^ 2 + lvy ^ 2) / m ^ 2) /\
    dlm <= 0.
Proof.
  intros Hn Hm HI HG Ho Hc.
  destruct (control_law_regular self x y vx vy m lx ly lvx lvy lm Hn Hm Ho)
    as [u [Hu Hp]].
  assert (Nm : m <> 0) by lra.
  pose proof (eom_value self x y vx vy m lx ly lvx lvy lm t _ _ _ Hp Nm HI HG)
    as E.
  pose proof (direction_attained lvx lvy Hn) as Ha.
  set (n := sqrt (lvx ^ 2 + lvy ^ 2)) in *.
  exists u. eexists. eexists.
  split; [exact Hu |]. split; [exact E |].
  cbn [getitem nth_error]. split; [reflexivity |].
  assert (Ed : self_c self * u / m ^ 2 *
               (lvx * (- lvx / n) + lvy * (- lvy / n)) =
               - (self_c self * u * n / m ^ 2))
    by (rewrite Ha; field; exact Nm).
  split; [exact Ed |].
  rewrite Ed.
  assert (Hm2 : 0 < m ^ 2) by (apply pow_lt; exact Hm).
  assert (0 <= self_c self * u * n / m ^ 2).
  { unfold Rdiv. apply Rmult_le_pos.
    - apply Rmult_le_pos; [apply Rmult_le_pos; lra | lra].
    - apply Rlt_le, Rinv_0_lt_compat. exact Hm2. }
  lra.
Qed.

Lemma mass_costate_nonincreasing_witness :
  (0 < sqrt (3 ^ 2 + 4 ^ 2) /\ 0 < 1 /\
   self_Isp moc_problem <> 0 /\ self_G0 moc_problem <> 0 /\
   ((self_objfun_type moc_problem = "QC"%string /\ self_c moc_problem <> 0) \/
    self_objfun_type moc_problem = "MOC"%string) /\
   0 <= self_c moc_problem) /\
  exists u d dlm,
    0 <= u <= 1 /\
    _eom moc_problem [0; 1; 1 / 5; -1 / 20; 1; 0; 0; 3; 4; 0] 0 = Ok d /\
    getitem d 9 = Ok dlm /\
    dlm = - (self_c moc_problem * u * sqrt (3 ^ 2 + 4 ^ 2) / 1 ^ 2) /\
    dlm <= 0.
Proof.
  assert (Hn : 0 < sqrt (3 ^ 2 + 4 ^ 2)) by (apply sqrt_lt_R0; lra).
  assert (Hm : 0 < 1) by lra.
  assert (HI : self_Isp moc_problem <> 0) by (cbn; lra).
  assert (HG : self_G0 moc_problem <> 0) by (cbn; lra).
  assert (Ho : (self_objfun_type moc_problem = "QC"%string /\
                self_c moc_problem <> 0) \/
               self_objfun_type moc_problem = "MOC"%string)
    by (right; reflexivity).
  assert (Hc : 0 <= self_c moc_problem) by (cbn; lra).
  split.
  - repeat split; assumption.
  - exact (mass_costate_nonincreasing moc_problem
             0 1 (1 / 5) (-1 / 20) 1 0 0 3 4 0 0 Hn Hm HI HG Ho Hc).
Defined.
